(** * COA AI Template: the resilient AI-invocation layer

    A shallow embedding of [backend/app/ai_service.py] and
    [backend/app/openai_provider.py].

    Python coroutines are modelled as state-passing computations that
    either return a value or raise an exception.  Durations are the
    exact values of the float expressions of the source ([1.0 * 2.0 **
    attempt] is an integer number of seconds, represented exactly in
    binary64 for every attempt below 1024). *)

From Stdlib Require Import ZArith List String Ascii Lia QArith DecimalString.
From stdpp Require Import base option list list_numbers strings gmap.

Local Open Scope string_scope.
Local Open Scope list_scope.
Local Open Scope Z_scope.

(** ** Exceptions and outcomes *)

(** The exception classes the code raises or catches.  In the [openai]
    package [RateLimitError] is the subclass of [APIStatusError] raised
    for status 429, and [APITimeoutError] is a subclass of
    [APIConnectionError]; [APIStatusError] below stands for the
    instances of that class that are not a [RateLimitError]. *)
Inductive exn : Type :=
| RateLimitError (message : string)
| APITimeoutError (message : string)
| APIConnectionError (message : string)
| APIStatusError (status_code : Z) (message : string)
| ValueError (message : string)
| TypeError (message : string)
| IndexError (message : string).

(** [e.status_code], for the classes that have one. *)
Definition status_code (e : exn) : option Z :=
  match e with
  | RateLimitError _ => Some 429
  | APIStatusError sc _ => Some sc
  | _ => None
  end.

Inductive outcome (A : Type) : Type :=
| Return (a : A)
| Raise (e : exn).
Arguments Return {A} a.
Arguments Raise {A} e.

(** A computation over a state [St]. *)
Definition M (St A : Type) : Type := St -> outcome A * St.

Definition ret {St A} (a : A) : M St A := fun s => (Return a, s).
Definition raise {St A} (e : exn) : M St A := fun s => (Raise e, s).
Definition bind {St A B} (m : M St A) (k : A -> M St B) : M St B :=
  fun s => match m s with
           | (Return a, s') => k a s'
           | (Raise e, s') => (Raise e, s')
           end.

Notation "x <- m ;; k" := (bind m (fun x => k))
  (at level 100, m at next level, k at level 200, right associativity).

(** ** [ai_service.py]: retry configuration *)

Definition MAX_RETRIES : Z := 3.
Definition INITIAL_BACKOFF : Z := 1.
Definition BACKOFF_MULTIPLIER : Z := 2.
Definition REQUEST_TIMEOUT : Z := 60.

(** ** [with_retry] *)

(** What the wrapper writes to the logger. *)
Inductive log_record : Type :=
| LogRetry (reason : string) (wait_time attempt_no max_retries : Z)
| LogApiError (status_code : Z) (message : string)
| LogExhausted (max_retries : Z).

(** The effects of the wrapper itself, in the order they happen. *)
Inductive effect : Type :=
| Log (r : log_record)
| Sleep (seconds : Z).

(** The state a wrapped coroutine runs in: the state of the wrapped
    function and the effects performed by the wrapper so far. *)
Record retry_state (St : Type) : Type := mk_retry_state {
  inner : St;
  effects : list effect
}.
Arguments mk_retry_state {St} inner effects.
Arguments inner {St} r.
Arguments effects {St} r.

Definition set_inner {St} (s : St) (st : retry_state St) : retry_state St :=
  mk_retry_state s (effects st).

Definition emit {St} (e : effect) (st : retry_state St) : retry_state St :=
  mk_retry_state (inner st) (effects st ++ [e]).

(** [range(n)]. *)
Definition range (n : Z) : list Z := map Z.of_nat (seq 0 (Z.to_nat n)).

(** [backoff * (BACKOFF_MULTIPLIER ** attempt)] with [backoff =
    INITIAL_BACKOFF], which the loop never reassigns.  The source
    computes [1.0 * (2.0 ** attempt)] in binary64: a power of two, which
    is the exact integer below for [0 <= attempt < 1024]; at [attempt =
    1024] the float power raises [OverflowError] and the integer below
    no longer describes it.  [attempt] ranges over [range(max_retries)],
    so the model is exact for [max_retries <= 1024];
    the properties that range over every [max_retries] and reach the
    backoff of a late attempt carry that bound. *)
Definition wait_time (attempt : Z) : Z :=
  INITIAL_BACKOFF * BACKOFF_MULTIPLIER ^ attempt.

(** Which [except] clause of the wrapper an exception reaches. *)
Inductive handler : Type :=
| Retry (reason : string)
| LogAndReraise (sc : Z) (message : string)
| Uncaught.

Definition except_clause (e : exn) : handler :=
  match e with
  | RateLimitError _ => Retry "Rate limited"
  | APITimeoutError _ => Retry "Timeout"
  | APIConnectionError _ => Retry "Connection error"
  | APIStatusError sc msg =>
      if (400 <=? sc) && (sc <? 500) then LogAndReraise sc msg
      else Retry "API error"
  | _ => Uncaught
  end.

(** The body of [wrapper]: the [for attempt in range(max_retries)] loop
    over the attempts still to make, and the code after the loop. *)
Fixpoint retry_loop {St A} (max_retries : Z) (func : M St A)
    (attempts : list Z) (last_exception : option exn)
    : M (retry_state St) A :=
  fun st =>
    match attempts with
    | [] =>
        let st' := emit (Log (LogExhausted max_retries)) st in
        match last_exception with
        | Some e => (Raise e, st')
        | None =>
            (Raise (TypeError "exceptions must derive from BaseException"), st')
        end
    | attempt :: rest =>
        match func (inner st) with
        | (Return v, s') => (Return v, set_inner s' st)
        | (Raise e, s') =>
            let st' := set_inner s' st in
            match except_clause e with
            | Retry reason =>
                let w := wait_time attempt in
                let st1 :=
                  emit (Log (LogRetry reason w (attempt + 1) max_retries)) st' in
                retry_loop max_retries func rest (Some e) (emit (Sleep w) st1)
            | LogAndReraise sc msg =>
                (Raise e, emit (Log (LogApiError sc msg)) st')
            | Uncaught => (Raise e, st')
            end
        end
    end.

Definition with_retry {Args St A} (max_retries : Z) (func : Args -> M St A)
    : Args -> M (retry_state St) A :=
  fun args => retry_loop max_retries (func args) (range max_retries) None.

(** ** Observations on a run *)

(** The durations of the wrapper's sleeps, in order. *)
Fixpoint sleeps (l : list effect) : list Z :=
  match l with
  | [] => []
  | Sleep w :: l' => w :: sleeps l'
  | Log _ :: l' => sleeps l'
  end.

Definition total_sleep (l : list effect) : Z := fold_right Z.add 0 (sleeps l).

(** A function instrumented with the number of times it was invoked. *)
Definition counted {St A} (func : M St A) : M (St * nat) A :=
  fun sn =>
    match func (fst sn) with
    | (r, s') => (r, (s', S (snd sn)))
    end.

(** The state of [func] after [i] consecutive invocations from [s]. *)
Fixpoint after {St A} (func : M St A) (i : nat) (s : St) : St :=
  match i with
  | O => s
  | S i' => after func i' (snd (func s))
  end.

(** The outcome of invocation number [i] (from 0). *)
Definition nth_outcome {St A} (func : M St A) (i : nat) (s : St) : outcome A :=
  fst (func (after func i s)).

Definition is_retry (h : handler) : bool :=
  match h with Retry _ => true | _ => false end.

(** A failure the wrapper retries. *)
Definition transient (e : exn) : bool := is_retry (except_clause e).

Definition fails_transiently {A} (r : outcome A) : Prop :=
  match r with
  | Raise e => transient e = true
  | Return _ => False
  end.

(** A fresh run: no effect performed, no invocation counted. *)
Definition fresh {St} (s : St) : retry_state (St * nat) :=
  mk_retry_state (s, O) [].

(** ** [openai_provider.py]: configuration *)

Definition float : Type := Q.

(** [os.environ]. *)
Abbreviation environ := (gmap string string).

(** Truthiness of a [str]. *)
Definition truthy (s : string) : bool :=
  match s with
  | EmptyString => false
  | String _ _ => true
  end.

Definition _get_required_env (env : environ) (name : string) : outcome string :=
  match env !! name with
  | Some value =>
      if truthy value then Return value
      else Raise (ValueError ("Missing required environment variable: " +:+ name))
  | None => Raise (ValueError ("Missing required environment variable: " +:+ name))
  end.

Definition _get_optional_env (env : environ) (name default : string) : string :=
  match env !! name with
  | Some value => value
  | None => default
  end.

Record AzureOpenAIConfig : Type := mk_config {
  endpoint : string;
  api_key : string;
  chat_api_version : string;
  embedding_api_version : string;
  deployment_chat : string;
  deployment_chat_mini : string;
  deployment_embedding : string
}.

(** [AzureOpenAIConfig.__init__]. *)
Definition AzureOpenAIConfig_init (env : environ) : outcome AzureOpenAIConfig :=
  match _get_required_env env "AZURE_OPENAI_ENDPOINT" with
  | Raise e => Raise e
  | Return ep =>
      match _get_required_env env "AZURE_OPENAI_KEY" with
      | Raise e => Raise e
      | Return key =>
          Return
            {| endpoint := ep;
               api_key := key;
               chat_api_version :=
                 _get_optional_env env "AZURE_OPENAI_API_VERSION"
                   "2024-12-01-preview";
               embedding_api_version :=
                 _get_optional_env env "AZURE_OPENAI_EMBEDDING_API_VERSION"
                   "2023-05-15";
               deployment_chat :=
                 _get_optional_env env "AZURE_OPENAI_DEPLOYMENT_CHAT" "gpt-4.1";
               deployment_chat_mini :=
                 _get_optional_env env "AZURE_OPENAI_DEPLOYMENT_CHAT_MINI"
                   "gpt-4.1-mini";
               deployment_embedding :=
                 _get_optional_env env "AZURE_OPENAI_DEPLOYMENT_EMBEDDING"
                   "text-embedding-ada-002" |}
      end
  end.

Definition _initialize_model_mapping (config : AzureOpenAIConfig)
    : gmap string string :=
  <["text-embedding-3-small" := deployment_embedding config]>
  (<["text-embedding-ada-002" := deployment_embedding config]>
  (<["gpt-4" := deployment_chat config]>
  (<["gpt-4o-mini" := deployment_chat_mini config]>
  (<["gpt-4o" := deployment_chat config]> ∅)))).

(** A client handle: the three arguments it is constructed with. *)
Record client : Type := mk_client {
  client_api_key : string;
  client_api_version : string;
  client_azure_endpoint : string
}.

Definition _create_sync_client (config : AzureOpenAIConfig) : client :=
  mk_client (api_key config) (chat_api_version config) (endpoint config).
Definition _create_async_client (config : AzureOpenAIConfig) : client :=
  mk_client (api_key config) (chat_api_version config) (endpoint config).
Definition _create_embedding_client (config : AzureOpenAIConfig) : client :=
  mk_client (api_key config) (embedding_api_version config) (endpoint config).
Definition _create_async_embedding_client (config : AzureOpenAIConfig) : client :=
  mk_client (api_key config) (embedding_api_version config) (endpoint config).

(** The module globals that exist once the module has been imported. *)
Record globals : Type := mk_globals {
  _config : AzureOpenAIConfig;
  _MODEL_TO_DEPLOYMENT : gmap string string;
  azure_openai_client : client;
  azure_openai_async_client : client;
  azure_openai_embedding_client : client;
  azure_openai_async_embedding_client : client
}.

(** What importing the module writes to the logger at level CRITICAL. *)
Inductive startup_log : Type :=
| LogInitialized
| LogCritical (e : exn).

(** The module-level [try ... except ValueError: ... raise] block: the
    import either defines the globals or fails with the exception. *)
Definition module_init (env : environ) : outcome globals * list startup_log :=
  match AzureOpenAIConfig_init env with
  | Return config =>
      (Return
         {| _config := config;
            _MODEL_TO_DEPLOYMENT := _initialize_model_mapping config;
            azure_openai_client := _create_sync_client config;
            azure_openai_async_client := _create_async_client config;
            azure_openai_embedding_client := _create_embedding_client config;
            azure_openai_async_embedding_client :=
              _create_async_embedding_client config |},
       [LogInitialized])
  | Raise e => (Raise e, [LogCritical e])
  end.

Definition get_deployment_name (g : globals) (model_name : string)
    : outcome string :=
  match _MODEL_TO_DEPLOYMENT g !! model_name with
  | Some d => Return d
  | None =>
      if bool_decide (model_name ∈
           [deployment_chat (_config g); deployment_chat_mini (_config g);
            deployment_embedding (_config g)])
      then Return model_name
      else Raise (ValueError ("Unknown model name: " +:+ model_name))
  end.

Definition get_chat_deployment (g : globals) : string :=
  deployment_chat (_config g).
Definition get_chat_mini_deployment (g : globals) : string :=
  deployment_chat_mini (_config g).
Definition get_embedding_deployment (g : globals) : string :=
  deployment_embedding (_config g).

(** ** The remote provider *)

(** A [dict] with [str] keys and values, as written in the source. *)
Abbreviation str_dict := (list (string * string)).

(** The keyword arguments of [chat.completions.create]. *)
Record chat_kwargs : Type := mk_chat_kwargs {
  kw_model : string;
  kw_messages : list str_dict;
  kw_temperature : option float;
  kw_max_tokens : Z;
  kw_response_format : option str_dict
}.

Record choice : Type := mk_choice { message_content : option string }.
Record chat_response : Type := mk_chat_response { choices : list choice }.

(** The [input] of [embeddings.create]: one text or a list of texts. *)
Inductive embeddings_input : Type :=
| InputText (text : string)
| InputTexts (texts : list string).

Record embeddings_kwargs : Type := mk_embeddings_kwargs {
  ekw_model : string;
  ekw_input : embeddings_input
}.

Record embedding_item : Type := mk_item { embedding : list float }.
Record embeddings_response : Type :=
  mk_embeddings_response { data : list embedding_item }.

(** The remote service behind the clients, with a state of its own. *)
Record provider (P : Type) : Type := mk_provider {
  chat_endpoint : client -> chat_kwargs -> M P chat_response;
  embeddings_endpoint : client -> embeddings_kwargs -> M P embeddings_response
}.
Arguments chat_endpoint {P} p.
Arguments embeddings_endpoint {P} p.

Inductive request : Type :=
| ChatRequest (c : client) (kw : chat_kwargs)
| EmbeddingsRequest (c : client) (kw : embeddings_kwargs).

(** What the operation functions write to the logger. *)
Inductive app_log : Type :=
| LogParseFailure (description : string)
| LogRawContent (content : string)
| LogValidationFailed (e : exn).

(** The world the operation functions run in: the provider's state, the
    requests that reached it and the application log. *)
Record world (P : Type) : Type := mk_world {
  remote : P;
  requests : list request;
  logged : list app_log
}.
Arguments mk_world {P} remote requests logged.
Arguments remote {P} w.
Arguments requests {P} w.
Arguments logged {P} w.

Definition chat_completions_create {P} (pv : provider P) (c : client)
    (kw : chat_kwargs) : M (world P) chat_response :=
  fun w =>
    match chat_endpoint pv c kw (remote w) with
    | (r, p') => (r, mk_world p' (requests w ++ [ChatRequest c kw]) (logged w))
    end.

Definition embeddings_create {P} (pv : provider P) (c : client)
    (kw : embeddings_kwargs) : M (world P) embeddings_response :=
  fun w =>
    match embeddings_endpoint pv c kw (remote w) with
    | (r, p') =>
        (r, mk_world p' (requests w ++ [EmbeddingsRequest c kw]) (logged w))
    end.

Definition logger_error {P} (l : app_log) : M (world P) unit :=
  fun w => (Return tt, mk_world (remote w) (requests w) (logged w ++ [l])).

(** [l[0]]. *)
Definition first_item {St A} (l : list A) : M St A :=
  match l with
  | x :: _ => ret x
  | [] => raise (IndexError "list index out of range")
  end.

(** The arguments of the two calls of the probe. *)
Definition probe_chat_kwargs (g : globals) : chat_kwargs :=
  {| kw_model := deployment_chat_mini (_config g);
     kw_messages := [[("role", "user"); ("content", "Hello")]];
     kw_temperature := None;
     kw_max_tokens := 5;
     kw_response_format := None |}.

Definition probe_embeddings_kwargs (g : globals) : embeddings_kwargs :=
  {| ekw_model := deployment_embedding (_config g);
     ekw_input := InputText "test" |}.

(** [validate_azure_connection]: the probe calls the provider through the
    synchronous clients, outside [with_retry]. *)
Definition validate_azure_connection {P} (pv : provider P) (g : globals)
    : M (world P) str_dict :=
  fun w =>
    let body : M (world P) str_dict :=
      response <- chat_completions_create pv (azure_openai_client g)
        (probe_chat_kwargs g) ;;
      c <- first_item (choices response) ;;
      let chat_ok : bool :=
        match message_content c with Some _ => true | None => false end in
      embed_response <- embeddings_create pv (azure_openai_embedding_client g)
        (probe_embeddings_kwargs g) ;;
      item <- first_item (data embed_response) ;;
      let embedding_ok : bool := (0 <? Z.of_nat (length (embedding item))) in
      ret [("status", if chat_ok && embedding_ok then "healthy" else "degraded");
           ("chat_completion", if chat_ok then "ok" else "failed");
           ("embeddings", if embedding_ok then "ok" else "failed");
           ("endpoint", endpoint (_config g))]
    in
    match body w with
    | (Return d, w') => (Return d, w')
    | (Raise e, w') =>
        (Raise e,
         mk_world (remote w') (requests w') (logged w' ++ [LogValidationFailed e]))
    end.

(** [d.get(key)] for a [dict] written as a list of items. *)
Fixpoint dict_get (key : string) (d : str_dict) : option string :=
  match d with
  | [] => None
  | (k, v) :: d' => if String.eqb k key then Some v else dict_get key d'
  end.

(** ** [ai_service.py]: the operation functions *)

Definition generate_embedding_body {P} (pv : provider P) (g : globals)
    (text : string) : M (world P) (list float) :=
  response <- embeddings_create pv (azure_openai_async_embedding_client g)
    {| ekw_model := get_embedding_deployment g; ekw_input := InputText text |} ;;
  item <- first_item (data response) ;;
  ret (embedding item).

Definition generate_embedding {P} (pv : provider P) (g : globals)
    : string -> M (retry_state (world P)) (list float) :=
  with_retry MAX_RETRIES (generate_embedding_body pv g).

Definition generate_embeddings_batch_body {P} (pv : provider P) (g : globals)
    (texts : list string) : M (world P) (list (list float)) :=
  response <- embeddings_create pv (azure_openai_async_embedding_client g)
    {| ekw_model := get_embedding_deployment g; ekw_input := InputTexts texts |} ;;
  ret (map embedding (data response)).

Definition generate_embeddings_batch {P} (pv : provider P) (g : globals)
    : list string -> M (retry_state (world P)) (list (list float)) :=
  with_retry MAX_RETRIES (generate_embeddings_batch_body pv g).

(** The parameters of [chat_completion]. *)
Record chat_args : Type := mk_chat_args {
  messages : list str_dict;
  model : option string;
  temperature : float;
  max_tokens : Z;
  response_format : option str_dict
}.

(** The defaults of the optional parameters of [chat_completion]. *)
Definition chat_defaults (msgs : list str_dict) : chat_args :=
  {| messages := msgs; model := None; temperature := (7 # 10)%Q;
     max_tokens := 1000; response_format := None |}.

(** [model or default] for an [Optional[str]]. *)
Definition str_or (x : option string) (default : string) : string :=
  match x with
  | Some s => if truthy s then s else default
  | None => default
  end.

(** The [if response_format:] test and the key it adds to [kwargs]. *)
Definition forwarded_format (rf : option str_dict) : option str_dict :=
  match rf with
  | Some (p :: d) => Some (p :: d)
  | Some [] => None
  | None => None
  end.

(** The [kwargs] dictionary [chat_completion] builds. *)
Definition build_kwargs (g : globals) (a : chat_args) : chat_kwargs :=
  let deployment := str_or (model a) (get_chat_deployment g) in
  {| kw_model := deployment;
     kw_messages := messages a;
     kw_temperature := Some (temperature a);
     kw_max_tokens := max_tokens a;
     kw_response_format := forwarded_format (response_format a) |}.

Definition chat_completion_body {P} (pv : provider P) (g : globals)
    (a : chat_args) : M (world P) string :=
  let kwargs := build_kwargs g a in
  response <- chat_completions_create pv (azure_openai_async_client g) kwargs ;;
  c <- first_item (choices response) ;;
  ret (match message_content c with
       | Some s => if truthy s then s else ""
       | None => ""
       end).

Definition chat_completion {P} (pv : provider P) (g : globals)
    : chat_args -> M (retry_state (world P)) string :=
  with_retry MAX_RETRIES (chat_completion_body pv g).

(** A decoded JSON value: what [json.loads] builds. *)
#[warnings="-register-all"] Inductive json : Type :=
| JNull
| JBool (b : bool)
| JInt (n : Z)
| JFloat (lexeme : string)
| JString (s : string)
| JList (items : list json)
| JDict (pairs : list (string * json)).

(** [json.JSONDecodeError]: [msg], [doc] and [pos]. *)
Record JSONDecodeError : Type := mk_decode_error {
  jmsg : string;
  doc : string;
  pos : nat
}.

Inductive loads_result : Type :=
| Decoded (v : json)
| DecodeError (e : JSONDecodeError).

(** The parameters of [chat_completion_json]. *)
Record json_args : Type := mk_json_args {
  j_messages : list str_dict;
  j_model : option string;
  j_temperature : float;
  j_max_tokens : Z
}.

Definition json_defaults (msgs : list str_dict) : json_args :=
  {| j_messages := msgs; j_model := None; j_temperature := (3 # 10)%Q;
     j_max_tokens := 2000 |}.

(** Running a computation of the wrapped function's state inside the
    wrapper's state. *)
Definition lift {St A} (m : M St A) : M (retry_state St) A :=
  fun st => match m (inner st) with (r, s') => (r, set_inner s' st) end.

Definition string_of_nat (n : nat) : string :=
  DecimalString.NilEmpty.string_of_uint (Nat.to_uint n).

Definition newline : ascii := "010"%char.

(** The part of [doc[:pos]] after its last newline. *)
Fixpoint last_line (prefix acc : list ascii) : list ascii :=
  match prefix with
  | [] => acc
  | c :: rest =>
      if Ascii.eqb c newline then last_line rest [] else last_line rest (acc ++ [c])
  end.

Definition lineno (e : JSONDecodeError) : nat :=
  let prefix := firstn (pos e) (list_ascii_of_string (doc e)) in
  S (length (filter (fun c => Ascii.eqb c newline = true) prefix)).

Definition colno (e : JSONDecodeError) : nat :=
  let prefix := firstn (pos e) (list_ascii_of_string (doc e)) in
  S (length (last_line prefix [])).

(** [str(e)] for a [JSONDecodeError]. *)
Definition JSONDecodeError_str (e : JSONDecodeError) : string :=
  jmsg e +:+ ": line " +:+ string_of_nat (lineno e) +:+ " column "
    +:+ string_of_nat (colno e) +:+ " (char " +:+ string_of_nat (pos e) +:+ ")".

(** The arguments [chat_completion_json] calls [chat_completion] with. *)
Definition json_chat_args (a : json_args) : chat_args :=
  {| messages := j_messages a;
     model := j_model a;
     temperature := j_temperature a;
     max_tokens := j_max_tokens a;
     response_format := Some [("type", "json_object")] |}.

(** [chat_completion_json]; [json_loads] stands for [json.loads] of the
    standard library. *)
Definition chat_completion_json_body {P} (json_loads : string -> loads_result)
    (pv : provider P) (g : globals) (a : json_args)
    : M (retry_state (world P)) json :=
  content <- chat_completion pv g (json_chat_args a) ;;
  match json_loads content with
  | Decoded v => ret v
  | DecodeError e =>
      _ <- lift (logger_error (LogParseFailure (JSONDecodeError_str e))) ;;
      _ <- lift (logger_error (LogRawContent content)) ;;
      raise (ValueError
               ("Invalid JSON response from model: " +:+ JSONDecodeError_str e))
  end.

Definition chat_completion_json {P} (json_loads : string -> loads_result)
    (pv : provider P) (g : globals)
    : json_args -> M (retry_state (retry_state (world P))) json :=
  with_retry MAX_RETRIES (chat_completion_json_body json_loads pv g).

Definition quick_analysis {P} (pv : provider P) (g : globals)
    (text prompt : string) (model : option string)
    : M (retry_state (world P)) string :=
  let deployment := str_or model (get_chat_mini_deployment g) in
  let messages :=
    [[("role", "system"); ("content", prompt)];
     [("role", "user"); ("content", text)]] in
  chat_completion pv g
    {| messages := messages; model := Some deployment;
       temperature := (3 # 10)%Q; max_tokens := 500;
       response_format := None |}.

(** The exception a computation ends with, if any, and what it carries. *)
Definition exn_message (e : exn) : string :=
  match e with
  | RateLimitError m | APITimeoutError m | APIConnectionError m
  | APIStatusError _ m | ValueError m | TypeError m | IndexError m => m
  end.

(** [needle in haystack] for [str]. *)
Definition contains (needle haystack : string) : bool :=
  match String.index 0 needle haystack with
  | Some _ => true
  | None => false
  end.

(** ** A decoder for the examples

    [json.loads] belongs to Python's standard library.  The decoder
    below follows [json.decoder] ([scan_once], [JSONObject], [JSONArray],
    [scanstring], [decode]) on ASCII texts made of objects, arrays,
    strings without escape sequences or control characters, integers and
    the literals [null], [true] and [false]; on any other text it
    answers [None]. *)

Definition dquote : ascii := "034"%char.

(** [s] between double quotes. *)
Definition quoted (s : string) : string :=
  String dquote (s +:+ String dquote EmptyString).

Definition is_ws (c : ascii) : bool :=
  Ascii.eqb c " " || Ascii.eqb c "009" || Ascii.eqb c "010" || Ascii.eqb c "013".

Definition is_digit (c : ascii) : bool :=
  (48 <=? nat_of_ascii c)%nat && (nat_of_ascii c <=? 57)%nat.

Fixpoint skip_ws (s : list ascii) (idx : nat) : list ascii * nat :=
  match s with
  | c :: s' => if is_ws c then skip_ws s' (S idx) else (s, idx)
  | [] => (s, idx)
  end.

Inductive scan (A : Type) : Type :=
| Scanned (v : A) (rest : list ascii) (idx : nat)
| StopIteration (idx : nat)
| Invalid (msg : string) (idx : nat)
| Unsupported.
Arguments Scanned {A} v rest idx.
Arguments StopIteration {A} idx.
Arguments Invalid {A} msg idx.
Arguments Unsupported {A}.

(** [scanstring], from the character after the opening quote at
    [begin]. *)
Fixpoint scanstring (begin : nat) (s : list ascii) (idx : nat)
    (acc : list ascii) : scan string :=
  match s with
  | [] => Invalid "Unterminated string starting at" begin
  | c :: s' =>
      if Ascii.eqb c dquote then
        Scanned (string_of_list_ascii (rev acc)) s' (S idx)
      else if Ascii.eqb c "\" then Unsupported
      else if (nat_of_ascii c <? 32)%nat then Unsupported
      else scanstring begin s' (S idx) (c :: acc)
  end.

(** The digits of an integer after the first one. *)
Fixpoint scan_digits (s : list ascii) (idx : nat) (acc : Z)
    : Z * list ascii * nat :=
  match s with
  | c :: s' =>
      if is_digit c
      then scan_digits s' (S idx) (10 * acc + Z.of_nat (nat_of_ascii c - 48))
      else (acc, s, idx)
  | [] => (acc, s, idx)
  end.

(** The integer part of a number: [0], or a digit from 1 to 9 followed
    by digits. *)
Definition scan_int (s : list ascii) (idx : nat) : option (Z * list ascii * nat) :=
  match s with
  | c :: s' =>
      if Ascii.eqb c "0" then Some (0, s', S idx)
      else if is_digit c
      then Some (scan_digits s' (S idx) (Z.of_nat (nat_of_ascii c - 48)))
      else None
  | [] => None
  end.

(** A number with a fraction or an exponent is a float: not decoded. *)
Definition int_only (sign : Z) (r : Z * list ascii * nat) : scan json :=
  match r with
  | (n, rest, idx) =>
      match rest with
      | c :: _ =>
          if Ascii.eqb c "." || Ascii.eqb c "e" || Ascii.eqb c "E"
          then Unsupported
          else Scanned (JInt (sign * n)) rest idx
      | [] => Scanned (JInt (sign * n)) rest idx
      end
  end.

Fixpoint starts_with (p s : list ascii) : bool :=
  match p, s with
  | [], _ => true
  | a :: p', b :: s' => Ascii.eqb a b && starts_with p' s'
  | _ :: _, [] => false
  end.

Definition literal (w : string) (v : json) (s : list ascii) (idx : nat)
    : option (scan json) :=
  let p := list_ascii_of_string w in
  if starts_with p s then Some (Scanned v (skipn (length p) s) (idx + length p)%nat)
  else None.

(** [d[key] = value]. *)
Fixpoint dict_set (key : string) (value : json) (d : list (string * json))
    : list (string * json) :=
  match d with
  | [] => [(key, value)]
  | (k, v) :: d' =>
      if String.eqb k key then (k, value) :: d' else (k, v) :: dict_set key value d'
  end.

(** Where the scanner is: at a value, inside an object at the first
    character of a key, or inside an array at an item. *)
Inductive mode : Type :=
| AtValue
| InObject (pairs : list (string * json))
| InArray (items : list json).

Definition expecting_name : string :=
  "Expecting property name enclosed in double quotes".

Fixpoint scan_once (fuel : nat) (m : mode) (s : list ascii) (idx : nat)
    : scan json :=
  match fuel with
  | O => Unsupported
  | S fuel' =>
      match m with
      | AtValue =>
          match s with
          | [] => StopIteration idx
          | c :: s' =>
              if Ascii.eqb c dquote then
                match scanstring idx s' (S idx) [] with
                | Scanned v r e => Scanned (JString v) r e
                | StopIteration i => StopIteration i
                | Invalid msg i => Invalid msg i
                | Unsupported => Unsupported
                end
              else if Ascii.eqb c "{" then
                match skip_ws s' (S idx) with
                | (c1 :: r, e) =>
                    if Ascii.eqb c1 "}" then Scanned (JDict []) r (S e)
                    else if Ascii.eqb c1 dquote
                    then scan_once fuel' (InObject []) r (S e)
                    else Invalid expecting_name e
                | ([], e) => Invalid expecting_name e
                end
              else if Ascii.eqb c "[" then
                match skip_ws s' (S idx) with
                | (c1 :: r, e) =>
                    if Ascii.eqb c1 "]" then Scanned (JList []) r (S e)
                    else scan_once fuel' (InArray []) (c1 :: r) e
                | ([], e) => scan_once fuel' (InArray []) [] e
                end
              else
                match literal "null" JNull s idx,
                      literal "true" (JBool true) s idx,
                      literal "false" (JBool false) s idx with
                | Some r, _, _ | None, Some r, _ | None, None, Some r => r
                | None, None, None =>
                    if Ascii.eqb c "-" then
                      match scan_int s' (S idx) with
                      | Some r => int_only (-1) r
                      | None =>
                          if starts_with (list_ascii_of_string "-Infinity") s
                          then Unsupported else StopIteration idx
                      end
                    else
                      match scan_int s idx with
                      | Some r => int_only 1 r
                      | None =>
                          if starts_with (list_ascii_of_string "NaN") s
                             || starts_with (list_ascii_of_string "Infinity") s
                          then Unsupported else StopIteration idx
                      end
                end
          end
      | InObject pairs =>
          match scanstring (idx - 1) s idx [] with
          | Scanned key s1 e1 =>
              match skip_ws s1 e1 with
              | (c :: s2, e2) =>
                  if Ascii.eqb c ":" then
                    match skip_ws s2 (S e2) with
                    | (s3, e3) =>
                        match scan_once fuel' AtValue s3 e3 with
                        | Scanned value s4 e4 =>
                            let pairs' := dict_set key value pairs in
                            match skip_ws s4 e4 with
                            | (c5 :: s5, e5) =>
                                if Ascii.eqb c5 "}" then
                                  Scanned (JDict pairs') s5 (S e5)
                                else if Ascii.eqb c5 "," then
                                  match skip_ws s5 (S e5) with
                                  | (c6 :: s6, e6) =>
                                      if Ascii.eqb c6 dquote
                                      then scan_once fuel' (InObject pairs') s6 (S e6)
                                      else Invalid expecting_name e6
                                  | ([], e6) => Invalid expecting_name e6
                                  end
                                else Invalid "Expecting ',' delimiter" e5
                            | ([], e5) => Invalid "Expecting ',' delimiter" e5
                            end
                        | StopIteration i => Invalid "Expecting value" i
                        | Invalid msg i => Invalid msg i
                        | Unsupported => Unsupported
                        end
                    end
                  else Invalid "Expecting ':' delimiter" e2
              | ([], e2) => Invalid "Expecting ':' delimiter" e2
              end
          | StopIteration i => StopIteration i
          | Invalid msg i => Invalid msg i
          | Unsupported => Unsupported
          end
      | InArray items =>
          match scan_once fuel' AtValue s idx with
          | Scanned value s1 e1 =>
              match skip_ws s1 e1 with
              | (c :: s2, e2) =>
                  if Ascii.eqb c "]" then
                    Scanned (JList (items ++ [value])) s2 (S e2)
                  else if Ascii.eqb c "," then
                    match skip_ws s2 (S e2) with
                    | (s3, e3) => scan_once fuel' (InArray (items ++ [value])) s3 e3
                    end
                  else Invalid "Expecting ',' delimiter" e2
              | ([], e2) => Invalid "Expecting ',' delimiter" e2
              end
          | StopIteration i => Invalid "Expecting value" i
          | Invalid msg i => Invalid msg i
          | Unsupported => Unsupported
          end
      end
  end.

(** [JSONDecoder.decode]. *)
Definition json_decode (text : string) : option loads_result :=
  let l := list_ascii_of_string text in
  if forallb (fun c => (nat_of_ascii c <? 128)%nat) l then
    match skip_ws l 0 with
    | (s0, i0) =>
        match scan_once (2 * length l + 2) AtValue s0 i0 with
        | Scanned v r e =>
            match skip_ws r e with
            | ([], _) => Some (Decoded v)
            | (_ :: _, e') => Some (DecodeError (mk_decode_error "Extra data" text e'))
            end
        | StopIteration i =>
            Some (DecodeError (mk_decode_error "Expecting value" text i))
        | Invalid msg i => Some (DecodeError (mk_decode_error msg text i))
        | Unsupported => None
        end
    end
  else None.

(** [json_decode] as a total function, for the examples: its answer on
    a text outside the fragment above is a placeholder. *)
Definition json_loads_fragment (text : string) : loads_result :=
  match json_decode text with
  | Some r => r
  | None => DecodeError (mk_decode_error "outside the decoded fragment" text 0)
  end.

Definition topics_text : string :=
  "{" +:+ quoted "topics" +:+ ": [" +:+ quoted "x" +:+ "]}".

(** ** Stub operations and providers *)

(** An operation that raises [e] at every invocation. *)
Definition always_raises {St A} (e : exn) : M St A := fun s => (Raise e, s).

(** An operation over an invocation counter: it raises [e] at its first
    [k - 1] invocations and returns [v] from invocation [k] on. *)
Definition succeeds_at {A} (k : nat) (e : exn) (v : A) : M nat A :=
  fun n => if (S n <? k)%nat then (Raise e, S n) else (Return v, S n).

(** A provider without state whose chat endpoint answers with one choice
    of content [content] and whose embeddings endpoint answers with one
    item per input text, in input order. *)
Definition stub_provider (content : option string)
    (embed : string -> list float) : provider unit :=
  {| chat_endpoint := fun _ _ p =>
       (Return (mk_chat_response [mk_choice content]), p);
     embeddings_endpoint := fun _ kw p =>
       (Return
          (mk_embeddings_response
             (match ekw_input kw with
              | InputText t => [mk_item (embed t)]
              | InputTexts ts => map (fun t => mk_item (embed t)) ts
              end)), p) |}.

(** A provider that fails every call with [e]. *)
Definition failing_provider (e : exn) : provider unit :=
  {| chat_endpoint := fun _ _ p => (Raise e, p);
     embeddings_endpoint := fun _ _ p => (Raise e, p) |}.

(** An embedding for the examples: the byte values of the text. *)
Definition byte_embedding (t : string) : list float :=
  map (fun c => inject_Z (Z.of_nat (nat_of_ascii c))) (list_ascii_of_string t).

(** An environment with the two required variables only. *)
Definition minimal_environ : environ :=
  <["AZURE_OPENAI_KEY" := "secret"]>
  (<["AZURE_OPENAI_ENDPOINT" := "https://example.openai.azure.com"]> ∅).

Definition example_globals : globals :=
  match fst (module_init minimal_environ) with
  | Return g => g
  | Raise _ =>
      let c := mk_config "" "" "" "" "" "" "" in
      mk_globals c ∅ (_create_sync_client c) (_create_async_client c)
        (_create_embedding_client c) (_create_async_embedding_client c)
  end.

(** The world before any request. *)
Definition initial_world {P} (p : P) : world P := mk_world p [] [].

(** The state of a wrapped coroutine before any effect. *)
Definition start {St} (s : St) : retry_state St := mk_retry_state s [].

(** The sum of the first [n] backoff terms
    [INITIAL_BACKOFF * BACKOFF_MULTIPLIER ^ i]. *)
Definition backoff_sum (n : Z) : Z := fold_right Z.add 0 (map wait_time (range n)).

(** The request [generate_embeddings_batch] sends: it carries all the
    texts. *)
Definition batch_request (g : globals) (texts : list string) : request :=
  EmbeddingsRequest (azure_openai_async_embedding_client g)
    {| ekw_model := get_embedding_deployment g; ekw_input := InputTexts texts |}.


(** A variable the configuration can resolve: set, and not empty. *)
Definition resolvable (env : environ) (name : string) : Prop :=
  exists value, env !! name = Some value /\ value <> "".

(** [s or ""] for an [Optional[str]]. *)
Definition content_text (content : option string) : string :=
  match content with
  | Some s => s
  | None => ""
  end.

(** ** [main.py] *)

(** [fastapi.security.HTTPAuthorizationCredentials]: what [HTTPBearer]
    extracts from an [Authorization] header. *)
Record HTTPAuthorizationCredentials : Type := mk_credentials {
  scheme : string;
  credentials : string
}.

(** What an endpoint or a dependency ends with: a value, or
    [fastapi.HTTPException]. *)
Inductive http_outcome (A : Type) : Type :=
| Respond (a : A)
| HTTPException (status_code : Z) (detail : string).
Arguments Respond {A} a.
Arguments HTTPException {A} status_code detail.

Definition HTTP_401_UNAUTHORIZED : Z := 401.
Definition HTTP_503_SERVICE_UNAVAILABLE : Z := 503.

(** [get_current_user]: [security] is built with [auto_error=False], so
    the credentials are [None] when the request carries none. *)
Definition get_current_user (c : option HTTPAuthorizationCredentials)
    : option str_dict :=
  match c with
  | None => None
  | Some cr => Some [("token", credentials cr)]
  end.

Definition require_auth (c : option HTTPAuthorizationCredentials)
    : http_outcome str_dict :=
  match c with
  | None => HTTPException HTTP_401_UNAUTHORIZED "Missing authentication token"
  | Some _ =>
      match get_current_user c with
      | Some (item :: user) => Respond (item :: user)
      | Some [] | None =>
          HTTPException HTTP_401_UNAUTHORIZED "Invalid authentication token"
      end
  end.

(** The endpoint [get_me] behind its dependency [require_auth]. *)
Definition get_me (c : option HTTPAuthorizationCredentials)
    : http_outcome (list (string * json)) :=
  match require_auth c with
  | Respond _ =>
      Respond [("authenticated", JBool true);
               ("message", JString "You are authenticated!")]
  | HTTPException sc detail => HTTPException sc detail
  end.

Record AIHealthResponse : Type := mk_ai_health {
  ai_status : string;
  ai_chat_completion : string;
  ai_embeddings : string;
  ai_endpoint : string
}.

(** [AIHealthResponse] built from the keys of [result]: the four fields
    are required. *)
Definition AIHealthResponse_of (d : str_dict) : option AIHealthResponse :=
  match dict_get "status" d, dict_get "chat_completion" d,
        dict_get "embeddings" d, dict_get "endpoint" d with
  | Some s, Some c, Some e, Some ep => Some (mk_ai_health s c e ep)
  | _, _, _, _ => None
  end.

(** The text of the validation error of [AIHealthResponse]; the text
    itself is not modelled. *)
Definition validation_error_text : string :=
  "validation error for AIHealthResponse".

(** What [main.py] writes to its logger at level ERROR. *)
Inductive main_log : Type :=
| LogHealthCheckFailed (e : exn).

(** The running process: the module [app.openai_provider] once it has
    been imported, the log records of its import, the log of [main.py]
    and the world of the provider. *)
Record process (P : Type) : Type := mk_process {
  openai_provider : option globals;
  startup_logged : list startup_log;
  main_logged : list main_log;
  the_world : world P
}.
Arguments mk_process {P} openai_provider startup_logged main_logged the_world.
Arguments openai_provider {P} p.
Arguments startup_logged {P} p.
Arguments main_logged {P} p.
Arguments the_world {P} p.

(** [from app.openai_provider import validate_azure_connection]: the
    module body runs unless the module is already imported; an import
    that fails leaves no module behind. *)
Definition import_openai_provider {P} (env : environ) : M (process P) globals :=
  fun ps =>
    match openai_provider ps with
    | Some g => (Return g, ps)
    | None =>
        match module_init env with
        | (Return g, l) =>
            (Return g,
             mk_process (Some g) (startup_logged ps ++ l) (main_logged ps)
               (the_world ps))
        | (Raise e, l) =>
            (Raise e,
             mk_process None (startup_logged ps ++ l) (main_logged ps)
               (the_world ps))
        end
    end.

(** Running a computation of the world inside the process. *)
Definition in_world {P A} (m : M (world P) A) : M (process P) A :=
  fun ps =>
    match m (the_world ps) with
    | (r, w') =>
        (r, mk_process (openai_provider ps) (startup_logged ps) (main_logged ps) w')
    end.

(** [ai_health_check]; [str(e)] is the message of the exception. *)
Definition ai_health_check {P} (env : environ) (pv : provider P)
    : process P -> http_outcome AIHealthResponse * process P :=
  fun ps =>
    let body : M (process P) AIHealthResponse :=
      g <- import_openai_provider env ;;
      result <- in_world (validate_azure_connection pv g) ;;
      match AIHealthResponse_of result with
      | Some r => ret r
      | None => raise (ValueError validation_error_text)
      end
    in
    match body ps with
    | (Return r, ps') => (Respond r, ps')
    | (Raise e, ps') =>
        (HTTPException HTTP_503_SERVICE_UNAVAILABLE
           ("AI service unavailable: " +:+ exn_message e),
         mk_process (openai_provider ps') (startup_logged ps')
           (main_logged ps' ++ [LogHealthCheckFailed e]) (the_world ps'))
    end.

(** A process in which nothing has been imported or logged. *)
Definition fresh_process {P} (w : world P) : process P :=
  mk_process None [] [] w.

(** ** [main.py]: the module body and the start of the application *)

(** [os.getenv(name, default)]. *)
Definition os_getenv (env : environ) (name default : string) : string :=
  match env !! name with
  | Some value => value
  | None => default
  end.

(** [s.split(sep)] for a separator of one character: the text between
    the separators, empty pieces included. *)
Fixpoint str_split (sep : ascii) (s : string) : list string :=
  match s with
  | EmptyString => [EmptyString]
  | String c rest =>
      if Ascii.eqb c sep then EmptyString :: str_split sep rest
      else
        match str_split sep rest with
        | piece :: pieces => String c piece :: pieces
        | [] => [String c EmptyString]
        end
  end.

(** The module-level names of [main.py] that are read from the
    environment. *)
Record main_globals : Type := mk_main_globals {
  ENVIRONMENT : string;
  CORS_ORIGINS : list string
}.

(** The body of [main.py].  Its imports are [os], [logging], [datetime],
    [contextlib], [typing], [fastapi] and [pydantic], taken to be
    installed; [app.openai_provider] is not among them, it is imported
    by the body of [ai_health_check] only.  The two assignments read the
    environment with a default, and the rest of the body builds the
    application and declares classes and functions, so that no statement
    of the body depends on a variable of the provider.  The module is
    loaded by the server under the name [app.main], so the final block
    under [if __name__ == "__main__"], the development launcher that
    reads [HOST] and [PORT] and then has the server load [app.main], is
    not part of this body. *)
Definition main_module (env : environ) : outcome main_globals :=
  Return
    (mk_main_globals
       (os_getenv env "ENVIRONMENT" "development")
       (str_split ","
          (os_getenv env "CORS_ORIGINS"
             "http://localhost:5173,http://localhost:3000"))).

(** What [lifespan] writes to the logger at level INFO. *)
Inductive lifespan_log : Type :=
| LogStarting (environment : string)
| LogShuttingDown.

(** [lifespan] up to its [yield]. *)
Definition lifespan (m : main_globals) : list lifespan_log :=
  [LogStarting (ENVIRONMENT m)].

(** The start of the serving process, as a server given
    ["app.main:app"] does it: the import of [app.main], then [lifespan]
    up to its [yield]; from then on the application serves requests.
    The provider module has not been imported. *)
Definition start_process {P} (env : environ) (w : world P)
    : outcome (main_globals * list lifespan_log * process P) :=
  match main_module env with
  | Return m => Return (m, lifespan m, fresh_process w)
  | Raise e => Raise e
  end.

Record HealthResponse : Type := mk_health {
  health_status : string;
  health_timestamp : string;
  health_environment : string;
  health_version : string
}.

(** [health_check]; [utcnow] is [datetime.utcnow().isoformat()]. *)
Definition health_check (m : main_globals) (utcnow : string)
    : http_outcome HealthResponse :=
  Respond (mk_health "healthy" utcnow (ENVIRONMENT m) "1.0.0").

(** * Properties *)

(** ** [range] and the backoff sequence *)

Lemma range_length (n : Z) : length (range n) = Z.to_nat n.
Proof. unfold range. rewrite length_map, length_seq. reflexivity. Qed.


Lemma sleeps_app (l1 l2 : list effect) : sleeps (l1 ++ l2) = sleeps l1 ++ sleeps l2.
Proof.
  induction l1 as [|[r|w] l1 IH]; simpl; [reflexivity | exact IH | now rewrite IH].
Qed.



(** ** The retry loop *)

Section RetryLoop.
Context {St A : Type}.
Variable max_retries : Z.
Variable func : M St A.

Lemma nth_outcome_S (i : nat) (s : St) :
  nth_outcome func (S i) s = nth_outcome func i (snd (func s)).
Proof. reflexivity. Qed.

Lemma after_S (i : nat) (s : St) :
  after func (S i) s = snd (func (after func i s)).
Proof.
  revert s. induction i as [|i IH]; intros s; [reflexivity|].
  change (after func (S (S i)) s) with (after func (S i) (snd (func s))).
  rewrite IH. reflexivity.
Qed.


(** A loop whose invocation number [k] (from 0) succeeds after [k]
    transient failures returns that result, and sleeps after the
    failures only. *)
Lemma retry_loop_success (k : nat) :
  forall (attempts : list Z) (last : option exn) (st : retry_state St) (v : A),
    (k < length attempts)%nat ->
    (forall i, (i < k)%nat ->
               fails_transiently (nth_outcome func i (inner st))) ->
    nth_outcome func k (inner st) = Return v ->
    let res := retry_loop max_retries func attempts last st in
    fst res = Return v
    /\ inner (snd res) = after func (S k) (inner st)
    /\ sleeps (effects (snd res))
       = sleeps (effects st) ++ map wait_time (firstn k attempts).
Proof.
  induction k as [|k IH]; intros attempts last st v Hlen Hfail Hok.
  - destruct attempts as [|a rest]; [simpl in Hlen; lia|].
    unfold nth_outcome in Hok. simpl in Hok.
    cbn [retry_loop]. destruct (func (inner st)) as [r s'] eqn:Hf.
    simpl in Hok. subst r. simpl. rewrite Hf, app_nil_r. auto.
  - destruct attempts as [|a rest]; [simpl in Hlen; lia|].
    pose proof (Hfail O ltac:(lia)) as H0.
    unfold nth_outcome in H0. simpl in H0.
    cbn [retry_loop].
    destruct (func (inner st)) as [r s'] eqn:Hf. simpl in H0.
    destruct r as [v0|e]; [contradiction|].
    simpl in H0. unfold transient in H0.
    destruct (except_clause e) as [reason|sc msg|] eqn:Hc; try discriminate.
    cbv zeta.
    set (st1 := emit (Sleep (wait_time a)) _).
    assert (Hin : inner st1 = s') by reflexivity.
    destruct (IH rest (Some e) st1 v) as (Hr & Hi & Hs).
    + simpl in Hlen. lia.
    + intros i Hi. rewrite Hin.
      specialize (Hfail (S i) ltac:(lia)).
      rewrite nth_outcome_S, Hf in Hfail. exact Hfail.
    + rewrite Hin. rewrite nth_outcome_S, Hf in Hok. exact Hok.
    + split; [exact Hr|split].
      * rewrite Hi, Hin. simpl. rewrite Hf. reflexivity.
      * rewrite Hs. unfold st1. simpl. rewrite !sleeps_app. simpl.
        rewrite !app_nil_r, <- app_assoc. reflexivity.
Qed.

(** A failure that is not retried ends the loop at once. *)
Lemma retry_loop_not_retried (a : Z) (rest : list Z) (last : option exn)
    (st : retry_state St) (e : exn) (s' : St) :
  func (inner st) = (Raise e, s') ->
  transient e = false ->
  let res := retry_loop max_retries func (a :: rest) last st in
  fst res = Raise e
  /\ inner (snd res) = s'
  /\ sleeps (effects (snd res)) = sleeps (effects st).
Proof.
  intros Hf Ht. cbn [retry_loop]. rewrite Hf. unfold transient in Ht.
  destruct (except_clause e); try discriminate; simpl;
    rewrite ?sleeps_app, ?app_nil_r; auto.
Qed.

(** The counter of an instrumented function is its number of
    invocations. *)
Lemma after_counted (i : nat) (s : St) (n : nat) :
  after (counted func) i (s, n) = (after func i s, (n + i)%nat).
Proof.
  revert s n. induction i as [|i IH]; intros s n.
  - simpl. f_equal. lia.
  - simpl. unfold counted at 2. simpl. destruct (func s) as [r s'] eqn:Hf.
    simpl. rewrite IH. f_equal. lia.
Qed.

Lemma nth_outcome_counted (i : nat) (s : St) (n : nat) :
  nth_outcome (counted func) i (s, n) = nth_outcome func i s.
Proof.
  unfold nth_outcome. rewrite after_counted. unfold counted. simpl.
  destruct (func (after func i s)); reflexivity.
Qed.
End RetryLoop.

Lemma firstn_range (j : nat) (n : Z) :
  Z.of_nat j <= n -> firstn j (range n) = range (Z.of_nat j).
Proof.
  intros Hj. unfold range. rewrite firstn_map, take_seq, Nat2Z.id.
  replace (j `min` Z.to_nat n)%nat with j by lia. reflexivity.
Qed.

Lemma range_cons (n : Z) : 1 <= n -> exists rest, range n = 0 :: rest.
Proof.
  intros Hn. unfold range.
  destruct (Z.to_nat n) as [|m] eqn:Hm; [lia|].
  simpl. eexists. reflexivity.
Qed.

(** ** [with_retry] *)


(** C1 (the code misses it): with the default policy and an operation
    that is rate limited at every invocation, the wrapper invokes the
    operation 3 times and raises the last failure, but it has slept 1, 2
    and 4 seconds, 7 in all, where the sum of the first two backoff
    terms is 3: it sleeps after the final failed attempt as well. *)
Theorem with_retry_sleeps_after_final_attempt :
  let res :=
    with_retry MAX_RETRIES
      (fun _ : unit => counted (always_raises (A := string) (RateLimitError "busy")))
      tt (fresh tt) in
  fst res = Raise (RateLimitError "busy")
  /\ snd (inner (snd res)) = 3%nat
  /\ sleeps (effects (snd res)) = [1; 2; 4]
  /\ total_sleep (effects (snd res)) = 7
  /\ backoff_sum (MAX_RETRIES - 1) = 3
  /\ total_sleep (effects (snd res)) <> backoff_sum (MAX_RETRIES - 1).
Proof. vm_compute. repeat split; try reflexivity. discriminate. Qed.

(** C4: an operation whose first invocation fails with a status from 400
    to 499 other than 429 is invoked exactly once; the wrapper raises
    that failure and does not sleep. *)
Theorem with_retry_permanent_failure {Args St A} (max_retries : Z)
    (func : Args -> M St A) (args : Args) (s s' : St) (e : exn) (sc : Z) :
  1 <= max_retries ->
  status_code e = Some sc ->
  400 <= sc < 500 ->
  sc <> 429 ->
  func args s = (Raise e, s') ->
  let res :=
    with_retry max_retries (fun a => counted (func a)) args (fresh s) in
  fst res = Raise e
  /\ inner (snd res) = (s', 1%nat)
  /\ sleeps (effects (snd res)) = []
  /\ total_sleep (effects (snd res)) = 0.
Proof.
  intros Hn Hsc Hrange Hne Hf res.
  destruct (range_cons _ Hn) as [rest Hr].
  assert (Ht : transient e = false).
  { destruct e; simpl in Hsc; try discriminate.
    - injection Hsc as Heq. symmetry in Heq. contradiction.
    - injection Hsc as Heq. unfold transient. simpl. rewrite Heq.
      replace (400 <=? sc) with true by (symmetry; apply Z.leb_le; lia).
      replace (sc <? 500) with true by (symmetry; apply Z.ltb_lt; lia).
      reflexivity. }
  destruct (retry_loop_not_retried max_retries (counted (func args)) 0 rest None
              (fresh s) e (s', 1%nat)) as (Ho & Hi & Hs).
  { unfold counted. simpl. rewrite Hf. reflexivity. }
  { exact Ht. }
  subst res. unfold with_retry. rewrite Hr.
  repeat split; try assumption.
  unfold total_sleep. rewrite Hs. reflexivity.
Qed.

Lemma with_retry_permanent_failure_witness :
  let res :=
    with_retry MAX_RETRIES
      (fun _ : unit => counted (always_raises (A := string) (St := unit)
                                  (APIStatusError 404 "Not Found")))
      tt (fresh tt) in
  fst res = Raise (APIStatusError 404 "Not Found")
  /\ inner (snd res) = (tt, 1%nat)
  /\ sleeps (effects (snd res)) = []
  /\ total_sleep (effects (snd res)) = 0.
Proof.
  apply (with_retry_permanent_failure MAX_RETRIES
           (fun _ : unit => always_raises (APIStatusError 404 "Not Found"))
           tt tt tt (APIStatusError 404 "Not Found") 404).
  - unfold MAX_RETRIES. lia.
  - reflexivity.
  - lia.
  - lia.
  - reflexivity.
Defined.

(** C5: [RateLimitError] carries status 429, a status from 400 to 499,
    and yet it is retried: after a rate-limited first invocation the
    wrapper sleeps the initial backoff and invokes the operation again,
    whereas any other failure with such a status is not retried. *)
Theorem with_retry_rate_limit_retried {Args St A} (max_retries : Z)
    (func : Args -> M St A) (args : Args) (s : St) (msg : string) (v : A) :
  2 <= max_retries ->
  nth_outcome (func args) 0 s = Raise (RateLimitError msg) ->
  nth_outcome (func args) 1 s = Return v ->
  let res :=
    with_retry max_retries (fun a => counted (func a)) args (fresh s) in
  status_code (RateLimitError msg) = Some 429
  /\ transient (RateLimitError msg) = true
  /\ (forall sc m, 400 <= sc < 500 -> transient (APIStatusError sc m) = false)
  /\ fst res = Return v
  /\ snd (inner (snd res)) = 2%nat
  /\ sleeps (effects (snd res)) = [INITIAL_BACKOFF].
Proof.
  intros Hn H0 H1 res.
  split; [reflexivity|]. split; [reflexivity|]. split.
  { intros sc m Hsc. unfold transient. simpl.
    replace (400 <=? sc) with true by (symmetry; apply Z.leb_le; lia).
    replace (sc <? 500) with true by (symmetry; apply Z.ltb_lt; lia).
    reflexivity. }
  destruct (retry_loop_success max_retries (counted (func args)) 1
              (range max_retries) None (fresh s) v) as (Ho & Hi & Hs).
  - rewrite range_length. lia.
  - intros i Hi. assert (i = O) by lia. subst i. simpl.
    rewrite nth_outcome_counted, H0. reflexivity.
  - simpl. rewrite nth_outcome_counted. exact H1.
  - fold (with_retry max_retries (fun a => counted (func a)) args (fresh s))
      in Ho, Hi, Hs.
    fold res in Ho, Hi, Hs. simpl inner in Hi.
    rewrite after_counted in Hi.
    rewrite (firstn_range 1 max_retries) in Hs by lia.
    split; [exact Ho|]. split; [rewrite Hi; reflexivity|]. exact Hs.
Qed.

Lemma with_retry_rate_limit_retried_witness :
  let res :=
    with_retry MAX_RETRIES
      (fun _ : unit => counted (succeeds_at 2 (RateLimitError "slow down") "done"))
      tt (fresh O) in
  status_code (RateLimitError "slow down") = Some 429
  /\ transient (RateLimitError "slow down") = true
  /\ (forall sc m, 400 <= sc < 500 -> transient (APIStatusError sc m) = false)
  /\ fst res = Return "done"
  /\ snd (inner (snd res)) = 2%nat
  /\ sleeps (effects (snd res)) = [INITIAL_BACKOFF].
Proof.
  apply (with_retry_rate_limit_retried MAX_RETRIES
           (fun _ : unit => succeeds_at 2 (RateLimitError "slow down") "done")
           tt O "slow down" "done").
  - unfold MAX_RETRIES. lia.
  - reflexivity.
  - reflexivity.
Defined.



(** A first invocation that returns ends the wrapper at once. *)
Lemma with_retry_first_success {Args St A} (max_retries : Z)
    (func : Args -> M St A) (args : Args) (st : retry_state St) (v : A) (s' : St) :
  1 <= max_retries ->
  func args (inner st) = (Return v, s') ->
  with_retry max_retries func args st = (Return v, set_inner s' st).
Proof.
  intros Hn Hf. unfold with_retry.
  destruct (range_cons _ Hn) as [rest ->]. simpl. rewrite Hf. reflexivity.
Qed.

(** A first invocation that raises an exception the wrapper does not
    retry ends the wrapper at once, with that exception. *)
Lemma with_retry_not_retried {Args St A} (max_retries : Z)
    (func : Args -> M St A) (args : Args) (st : retry_state St) (e : exn) (s' : St) :
  1 <= max_retries ->
  func args (inner st) = (Raise e, s') ->
  transient e = false ->
  let res := with_retry max_retries func args st in
  fst res = Raise e /\ inner (snd res) = s'.
Proof.
  intros Hn Hf Ht res. subst res. unfold with_retry.
  destruct (range_cons _ Hn) as [rest ->].
  destruct (retry_loop_not_retried max_retries (func args) 0 rest None st e s' Hf Ht)
    as (Ho & Hi & _).
  split; assumption.
Qed.

(** A function that raises at every invocation makes the wrapper
    raise. *)
Lemma retry_loop_always_raises {St A} (max_retries : Z) (func : M St A)
    (attempts : list Z) :
  (forall s, exists e, fst (func s) = Raise e) ->
  forall (last : option exn) (st : retry_state St),
    exists e, fst (retry_loop max_retries func attempts last st) = Raise e.
Proof.
  intros Hraise. induction attempts as [|a rest IH]; intros last st.
  - destruct last; simpl; eexists; reflexivity.
  - cbn [retry_loop]. destruct (Hraise (inner st)) as [e He].
    destruct (func (inner st)) as [r s']. simpl in He. subst r.
    destruct (except_clause e); try (eexists; reflexivity).
    apply IH.
Qed.

(** ** The operation functions *)


Lemma MAX_RETRIES_pos : 1 <= MAX_RETRIES.
Proof. unfold MAX_RETRIES. lia. Qed.

(** One invocation of the body of [chat_completion] sends one request. *)
Lemma chat_completion_body_requests {P} (pv : provider P) (g : globals)
    (a : chat_args) (w : world P) :
  requests (snd (chat_completion_body pv g a w))
  = requests w ++ [ChatRequest (azure_openai_async_client g) (build_kwargs g a)].
Proof.
  unfold chat_completion_body, bind, chat_completions_create.
  destruct (chat_endpoint pv _ _ (remote w)) as [[resp|e] p']; [|reflexivity].
  destruct (choices resp) as [|c cs]; reflexivity.
Qed.

Lemma chat_completion_body_ok {P} (pv : provider P) (g : globals)
    (a : chat_args) (w : world P) (c : choice) (cs : list choice) (p' : P) :
  chat_endpoint pv (azure_openai_async_client g) (build_kwargs g a) (remote w)
  = (Return (mk_chat_response (c :: cs)), p') ->
  chat_completion_body pv g a w
  = (Return (match message_content c with Some s => s | None => "" end),
     mk_world p'
       (requests w ++ [ChatRequest (azure_openai_async_client g) (build_kwargs g a)])
       (logged w)).
Proof.
  intros H. unfold chat_completion_body, bind, chat_completions_create.
  rewrite H. simpl. unfold ret. f_equal. f_equal.
  destruct (message_content c) as [[|ch s]|]; reflexivity.
Qed.

(** C8: [chat_completion] addresses the deployment given as [model]
    when there is one, the main chat deployment otherwise, and returns
    the content of the first choice of the response, the empty string
    when that content is absent. *)
Theorem chat_completion_first_choice {P} (pv : provider P) (g : globals)
    (a : chat_args) (w : world P) (c : choice) (cs : list choice) (p' : P) :
  chat_endpoint pv (azure_openai_async_client g) (build_kwargs g a) (remote w)
  = (Return (mk_chat_response (c :: cs)), p') ->
  let res := chat_completion pv g a (start w) in
  fst res = Return (match message_content c with Some s => s | None => "" end)
  /\ (message_content c = None -> fst res = Return "")
  /\ requests (inner (snd res))
     = requests w ++ [ChatRequest (azure_openai_async_client g) (build_kwargs g a)]
  /\ (forall m, model a = Some m -> m <> "" -> kw_model (build_kwargs g a) = m)
  /\ (model a = None -> kw_model (build_kwargs g a) = deployment_chat (_config g))
  /\ kw_messages (build_kwargs g a) = messages a
  /\ kw_temperature (build_kwargs g a) = Some (temperature a)
  /\ kw_max_tokens (build_kwargs g a) = max_tokens a.
Proof.
  intros H res.
  assert (Hres : res = (Return (match message_content c with
                                | Some s => s | None => "" end),
                        set_inner
                          (mk_world p'
                             (requests w ++
                                [ChatRequest (azure_openai_async_client g)
                                   (build_kwargs g a)])
                             (logged w)) (start w))).
  { apply with_retry_first_success; [apply MAX_RETRIES_pos|].
    apply (chat_completion_body_ok pv g a w c cs p' H). }
  rewrite Hres. simpl.
  split; [reflexivity|]. split; [intros ->; reflexivity|].
  split; [reflexivity|]. split.
  { intros m Hm Hne. unfold str_or. rewrite Hm.
    destruct m; [contradiction|reflexivity]. }
  split; [intros Hm; unfold str_or; rewrite Hm; reflexivity|].
  repeat split.
Qed.

Lemma chat_completion_first_choice_witness :
  let a := {| messages := [[("role", "user"); ("content", "Hi")]];
              model := Some "gpt-4.1-nano"; temperature := (7 # 10)%Q;
              max_tokens := 1000; response_format := None |} in
  let res :=
    chat_completion (stub_provider None byte_embedding) example_globals a
      (start (initial_world tt)) in
  fst res = Return ""
  /\ requests (inner (snd res))
     = [ChatRequest (azure_openai_async_client example_globals)
          (build_kwargs example_globals a)]
  /\ kw_model (build_kwargs example_globals a) = "gpt-4.1-nano"
  /\ kw_model (build_kwargs example_globals (chat_defaults [])) = "gpt-4.1".
Proof.
  intros a res.
  destruct (chat_completion_first_choice (stub_provider None byte_embedding)
              example_globals a (initial_world tt) (mk_choice None) [] tt eq_refl)
    as (Ho & _ & Hreq & Hm & _).
  destruct (chat_completion_first_choice (stub_provider None byte_embedding)
              example_globals (chat_defaults []) (initial_world tt)
              (mk_choice None) [] tt eq_refl)
    as (_ & _ & _ & _ & Hd & _).
  split; [exact Ho|]. split; [exact Hreq|]. split.
  - apply (Hm "gpt-4.1-nano" eq_refl). discriminate.
  - rewrite (Hd eq_refl). reflexivity.
Defined.

(** C7: when the provider answers a batch with one item per text, in
    the order of the texts, [generate_embeddings_batch] sends one request
    carrying all the texts and returns the embeddings in that order, one
    per text; when every call of the provider fails, it raises and
    returns nothing. *)
Theorem generate_embeddings_batch_in_order {P} (pv : provider P) (g : globals)
    (texts : list string) (w : world P) (embed : string -> list float) :
  texts <> [] ->
  ((exists p',
      embeddings_endpoint pv (azure_openai_async_embedding_client g)
        {| ekw_model := get_embedding_deployment g; ekw_input := InputTexts texts |}
        (remote w)
      = (Return (mk_embeddings_response (map (fun t => mk_item (embed t)) texts)), p')) ->
   let res := generate_embeddings_batch pv g texts (start w) in
   fst res = Return (map embed texts)
   /\ requests (inner (snd res)) = requests w ++ [batch_request g texts]
   /\ (forall vectors, fst res = Return vectors ->
         length vectors = length texts
         /\ forall i t, texts !! i = Some t -> vectors !! i = Some (embed t)))
  /\ ((forall c kw p, exists e, fst (embeddings_endpoint pv c kw p) = Raise e) ->
      exists e, fst (generate_embeddings_batch pv g texts (start w)) = Raise e).
Proof.
  intros Hne. split.
  - intros [p' H] res.
    assert (Hres : res = (Return (map embed texts),
                          set_inner
                            (mk_world p' (requests w ++ [batch_request g texts])
                               (logged w)) (start w))).
    { apply with_retry_first_success; [apply MAX_RETRIES_pos|].
      unfold generate_embeddings_batch_body, bind, embeddings_create.
      simpl. rewrite H. simpl. unfold ret. rewrite map_map. reflexivity. }
    rewrite Hres. simpl. split; [reflexivity|]. split; [reflexivity|].
    intros vectors Hv. injection Hv as <-. split.
    + apply length_map.
    + intros i t Hi. rewrite list_lookup_fmap, Hi. reflexivity.
  - intros Hfail. apply retry_loop_always_raises.
    intros s. unfold generate_embeddings_batch_body, bind, embeddings_create.
    destruct (Hfail (azure_openai_async_embedding_client g)
                {| ekw_model := get_embedding_deployment g;
                   ekw_input := InputTexts texts |} (remote s)) as [e He].
    destruct (embeddings_endpoint pv _ _ (remote s)) as [r p'].
    simpl in He. subst r. exists e. reflexivity.
Qed.

Lemma generate_embeddings_batch_in_order_witness :
  let texts := ["a"; "b"; "c"] in
  (let res :=
     generate_embeddings_batch (stub_provider None byte_embedding)
       example_globals texts (start (initial_world tt)) in
   fst res = Return (map byte_embedding texts)
   /\ requests (inner (snd res)) = [batch_request example_globals texts])
  /\ exists e,
       fst (generate_embeddings_batch (failing_provider (APIStatusError 503 "down"))
              example_globals texts (start (initial_world tt))) = Raise e.
Proof.
  intros texts. split.
  - destruct (generate_embeddings_batch_in_order (stub_provider None byte_embedding)
                example_globals texts (initial_world tt) byte_embedding
                ltac:(discriminate)) as [Hok _].
    destruct (Hok (ex_intro _ tt eq_refl)) as (Ho & Hreq & _).
    split; [exact Ho | exact Hreq].
  - destruct (generate_embeddings_batch_in_order
                (failing_provider (APIStatusError 503 "down"))
                example_globals texts (initial_world tt) byte_embedding
                ltac:(discriminate)) as [_ Hfail].
    apply Hfail. intros c kw p. exists (APIStatusError 503 "down"). reflexivity.
Defined.

(** ** Nested retries *)

Section NestedRetry.
Context {P : Type}.
Variable json_loads : string -> loads_result.
Variable pv : provider P.
Variable g : globals.
Hypothesis provider_fails :
  forall c kw p, fails_transiently (fst (chat_endpoint pv c kw p)).






End NestedRetry.


(** ** [chat_completion_json] *)

Example json_decode_topics :
  json_decode topics_text
  = Some (Decoded (JDict [("topics", JList [JString "x"])])).
Proof. vm_compute. reflexivity. Qed.

Example json_decode_bad :
  json_decode "{bad json"
  = Some (DecodeError (mk_decode_error expecting_name "{bad json" 1)).
Proof. vm_compute. reflexivity. Qed.

Example JSONDecodeError_str_bad :
  JSONDecodeError_str (mk_decode_error expecting_name "{bad json" 1)
  = "Expecting property name enclosed in double quotes: line 1 column 2 (char 1)".
Proof. vm_compute. reflexivity. Qed.

Lemma chat_completion_content {P} (pv : provider P) (g : globals)
    (a : chat_args) (st : retry_state (world P)) (c : choice) (cs : list choice)
    (p' : P) :
  chat_endpoint pv (azure_openai_async_client g) (build_kwargs g a)
    (remote (inner st))
  = (Return (mk_chat_response (c :: cs)), p') ->
  chat_completion pv g a st
  = (Return (content_text (message_content c)),
     set_inner
       (mk_world p'
          (requests (inner st)
             ++ [ChatRequest (azure_openai_async_client g) (build_kwargs g a)])
          (logged (inner st))) st).
Proof.
  intros H. apply with_retry_first_success; [apply MAX_RETRIES_pos|].
  apply (chat_completion_body_ok pv g a (inner st) c cs p' H).
Qed.

(** C3, as the code has it: when the text of the first choice does not
    decode, [chat_completion_json] raises [ValueError] with the message
    "Invalid JSON response from model: " followed by the decoder's
    description of the error, after one request and without a retry; the
    raw text goes to the log, not into the exception, and no value is
    returned.  When the text decodes, the decoded value is returned. *)
Theorem chat_completion_json_decodes_or_raises {P}
    (json_loads : string -> loads_result) (pv : provider P) (g : globals)
    (a : json_args) (w : world P) (c : choice) (cs : list choice) (p' : P) :
  chat_endpoint pv (azure_openai_async_client g)
    (build_kwargs g (json_chat_args a)) (remote w)
  = (Return (mk_chat_response (c :: cs)), p') ->
  let content := content_text (message_content c) in
  let res := chat_completion_json json_loads pv g a (start (start w)) in
  (forall e, json_loads content = DecodeError e ->
     fst res
     = Raise (ValueError
                ("Invalid JSON response from model: " +:+ JSONDecodeError_str e))
     /\ logged (inner (inner (snd res)))
        = logged w ++ [LogParseFailure (JSONDecodeError_str e);
                       LogRawContent content]
     /\ length (requests (inner (inner (snd res)))) = S (length (requests w)))
  /\ (forall v, json_loads content = Decoded v -> fst res = Return v).
Proof.
  intros H content res.
  pose proof (chat_completion_content pv g (json_chat_args a) (start w) c cs p' H)
    as Hc.
  fold content in Hc. split.
  - intros e He.
    destruct (with_retry_not_retried MAX_RETRIES
                (chat_completion_json_body json_loads pv g) a (start (start w))
                (ValueError ("Invalid JSON response from model: "
                             +:+ JSONDecodeError_str e))
                (mk_retry_state
                   (mk_world p'
                      (requests w
                         ++ [ChatRequest (azure_openai_async_client g)
                               (build_kwargs g (json_chat_args a))])
                      (logged w ++ [LogParseFailure (JSONDecodeError_str e);
                                    LogRawContent content]))
                   []) MAX_RETRIES_pos) as [Ho Hi].
    + unfold chat_completion_json_body, bind. simpl inner. rewrite Hc, He.
      simpl. rewrite <- app_assoc. reflexivity.
    + reflexivity.
    + fold (chat_completion_json json_loads pv g a (start (start w))) in Ho, Hi.
      fold res in Ho, Hi. rewrite Ho, Hi. simpl.
      split; [reflexivity|]. split; [reflexivity|].
      rewrite length_app. simpl. lia.
  - intros v Hv. subst res. unfold chat_completion_json.
    erewrite with_retry_first_success; [reflexivity | apply MAX_RETRIES_pos |].
    unfold chat_completion_json_body, bind. simpl inner. rewrite Hc, Hv.
    reflexivity.
Qed.

Lemma chat_completion_json_decodes_or_raises_witness :
  fst (chat_completion_json json_loads_fragment
         (stub_provider (Some topics_text) byte_embedding) example_globals
         (json_defaults []) (start (start (initial_world tt))))
  = Return (JDict [("topics", JList [JString "x"])])
  /\ fst (chat_completion_json json_loads_fragment
            (stub_provider (Some "{bad json") byte_embedding) example_globals
            (json_defaults []) (start (start (initial_world tt))))
     = Raise (ValueError
                ("Invalid JSON response from model: "
                 +:+ JSONDecodeError_str
                       (mk_decode_error expecting_name "{bad json" 1))).
Proof.
  split.
  - destruct (chat_completion_json_decodes_or_raises json_loads_fragment
                (stub_provider (Some topics_text) byte_embedding) example_globals
                (json_defaults []) (initial_world tt)
                (mk_choice (Some topics_text)) [] tt eq_refl) as [_ Hok].
    apply Hok. vm_compute. reflexivity.
  - destruct (chat_completion_json_decodes_or_raises json_loads_fragment
                (stub_provider (Some "{bad json") byte_embedding) example_globals
                (json_defaults []) (initial_world tt)
                (mk_choice (Some "{bad json")) [] tt eq_refl) as [Hbad _].
    destruct (Hbad (mk_decode_error expecting_name "{bad json" 1)) as [Ho _].
    + vm_compute. reflexivity.
    + exact Ho.
Defined.

(** C3 fails as stated: for the provider output [{bad json] the
    exception raised carries the decoder's description of the error, in
    which the raw text does not occur. *)
Lemma chat_completion_json_error_omits_raw_text :
  let res :=
    chat_completion_json json_loads_fragment
      (stub_provider (Some "{bad json") byte_embedding) example_globals
      (json_defaults []) (start (start (initial_world tt))) in
  fst res
  = Raise (ValueError
             "Invalid JSON response from model: Expecting property name enclosed in double quotes: line 1 column 2 (char 1)")
  /\ ~ (exists e, fst res = Raise e /\ contains "{bad json" (exn_message e) = true).
Proof.
  assert (Hres :
    fst (chat_completion_json json_loads_fragment
           (stub_provider (Some "{bad json") byte_embedding) example_globals
           (json_defaults []) (start (start (initial_world tt))))
    = Raise (ValueError
               "Invalid JSON response from model: Expecting property name enclosed in double quotes: line 1 column 2 (char 1)"))
    by (vm_compute; reflexivity).
  cbv zeta. split; [exact Hres|].
  intros (e & He & Hc). rewrite Hres in He. injection He as <-.
  vm_compute in Hc. discriminate.
Qed.

(** ** The probe *)

(** C2, as the code has it: when both calls of the probe answer, the chat
    check is "ok" exactly when the content of the first choice is present
    (an empty text counts as present), the embeddings check is "ok" exactly
    when the first vector is not empty, and the status is "healthy" exactly
    when both checks are "ok", "degraded" otherwise.  In particular an
    absent content with a vector that is not empty gives "degraded",
    "failed" and "ok". *)
Theorem validate_azure_connection_status {P} (pv : provider P) (g : globals)
    (w : world P) (c : choice) (cs : list choice) (p1 : P)
    (item : embedding_item) (items : list embedding_item) (p2 : P) :
  chat_endpoint pv (azure_openai_client g) (probe_chat_kwargs g) (remote w)
  = (Return (mk_chat_response (c :: cs)), p1) ->
  embeddings_endpoint pv (azure_openai_embedding_client g)
    (probe_embeddings_kwargs g) p1
  = (Return (mk_embeddings_response (item :: items)), p2) ->
  exists d,
    fst (validate_azure_connection pv g w) = Return d
    /\ (dict_get "chat_completion" d = Some "ok" <-> message_content c <> None)
    /\ (dict_get "chat_completion" d = Some "failed" <-> message_content c = None)
    /\ (dict_get "embeddings" d = Some "ok" <-> embedding item <> [])
    /\ (dict_get "embeddings" d = Some "failed" <-> embedding item = [])
    /\ (dict_get "status" d = Some "healthy"
        <-> message_content c <> None /\ embedding item <> [])
    /\ (dict_get "status" d = Some "degraded"
        <-> ~ (message_content c <> None /\ embedding item <> []))
    /\ (message_content c = None -> embedding item <> [] ->
        dict_get "status" d = Some "degraded"
        /\ dict_get "chat_completion" d = Some "failed"
        /\ dict_get "embeddings" d = Some "ok").
Proof.
  intros Hchat Hembed.
  unfold validate_azure_connection, bind, chat_completions_create,
    embeddings_create.
  rewrite Hchat. simpl. rewrite Hembed. simpl.
  destruct (message_content c) as [s|]; destruct (embedding item) as [|x v];
    simpl; eexists; (split; [reflexivity|]); simpl;
    repeat split; intros; try discriminate; try congruence; try tauto;
    try (exfalso; match goal with
                  | H : ~ (_ /\ _) |- _ => apply H; split; discriminate
                  end).
Qed.

Lemma validate_azure_connection_status_witness :
  exists d,
    fst (validate_azure_connection (stub_provider None byte_embedding)
           example_globals (initial_world tt)) = Return d
    /\ dict_get "status" d = Some "degraded"
    /\ dict_get "chat_completion" d = Some "failed"
    /\ dict_get "embeddings" d = Some "ok".
Proof.
  destruct (validate_azure_connection_status (stub_provider None byte_embedding)
              example_globals (initial_world tt) (mk_choice None) [] tt
              (mk_item (byte_embedding "test")) [] tt eq_refl eq_refl)
    as (d & Hd & _ & _ & _ & _ & _ & _ & Hdeg).
  exists d. split; [exact Hd|].
  apply Hdeg; [reflexivity | discriminate].
Defined.

(** C2 fails as stated: for a provider whose chat call returns the empty
    text and whose embedding call returns a vector that is not empty, the
    probe reports "healthy" and a chat check "ok". *)
Lemma validate_azure_connection_empty_content_healthy :
  exists d,
    fst (validate_azure_connection (stub_provider (Some "") byte_embedding)
           example_globals (initial_world tt)) = Return d
    /\ dict_get "status" d = Some "healthy"
    /\ dict_get "chat_completion" d = Some "ok"
    /\ dict_get "embeddings" d = Some "ok"
    /\ dict_get "status" d <> Some "degraded"
    /\ dict_get "chat_completion" d <> Some "failed".
Proof.
  eexists. split; [vm_compute; reflexivity|].
  repeat split; try reflexivity; discriminate.
Qed.

(** ** Configuration *)

Lemma _get_required_env_resolvable (env : environ) (name value : string) :
  env !! name = Some value -> value <> "" ->
  _get_required_env env name = Return value.
Proof.
  intros H Hne. unfold _get_required_env. rewrite H.
  destruct value; [contradiction|reflexivity].
Qed.

Lemma _get_required_env_unresolvable (env : environ) (name : string) :
  ~ resolvable env name ->
  _get_required_env env name
  = Raise (ValueError ("Missing required environment variable: " +:+ name)).
Proof.
  intros H. unfold _get_required_env.
  destruct (env !! name) as [value|] eqn:Hv; [|reflexivity].
  destruct value; [reflexivity|].
  exfalso. apply H. eexists. split; [exact Hv|discriminate].
Qed.

(** C9: when the endpoint or the key cannot be resolved from the
    environment (unset, or empty), building the configuration raises
    [ValueError] naming the first such variable, and the import of the
    provider module fails with that error after logging it at level
    CRITICAL.  The process starts all the same: [main.py] does not import
    the provider module when it is loaded, the basic health endpoint
    answers, and the import fails inside [ai_health_check], which answers
    503 with the message of the error and sends the provider no request.
    When both variables can be resolved the configuration is built
    whatever the other five variables are, and each of them that is
    absent takes its default. *)
Theorem AzureOpenAIConfig_required_and_defaults (env : environ) :
  ((~ resolvable env "AZURE_OPENAI_ENDPOINT"
    \/ ~ resolvable env "AZURE_OPENAI_KEY") ->
   exists name,
     (name = "AZURE_OPENAI_ENDPOINT" \/ name = "AZURE_OPENAI_KEY")
     /\ ~ resolvable env name
     /\ let e :=
          ValueError ("Missing required environment variable: " +:+ name) in
        AzureOpenAIConfig_init env = Raise e
        /\ module_init env = (Raise e, [LogCritical e])
        /\ forall P (pv : provider P) (w : world P) (utcnow : string),
             exists m l,
               start_process env w = Return (m, l, fresh_process w)
               /\ health_check m utcnow
                  = Respond (mk_health "healthy" utcnow (ENVIRONMENT m) "1.0.0")
               /\ ai_health_check env pv (fresh_process w)
                  = (HTTPException 503
                       ("AI service unavailable: Missing required environment variable: "
                        +:+ name),
                     mk_process None [LogCritical e] [LogHealthCheckFailed e] w))
  /\ (resolvable env "AZURE_OPENAI_ENDPOINT" ->
      resolvable env "AZURE_OPENAI_KEY" ->
      exists config g,
        AzureOpenAIConfig_init env = Return config
        /\ fst (module_init env) = Return g
        /\ _config g = config
        /\ env !! "AZURE_OPENAI_ENDPOINT" = Some (endpoint config)
        /\ env !! "AZURE_OPENAI_KEY" = Some (api_key config)
        /\ (env !! "AZURE_OPENAI_API_VERSION" = None ->
            chat_api_version config = "2024-12-01-preview")
        /\ (env !! "AZURE_OPENAI_EMBEDDING_API_VERSION" = None ->
            embedding_api_version config = "2023-05-15")
        /\ (env !! "AZURE_OPENAI_DEPLOYMENT_CHAT" = None ->
            deployment_chat config = "gpt-4.1")
        /\ (env !! "AZURE_OPENAI_DEPLOYMENT_CHAT_MINI" = None ->
            deployment_chat_mini config = "gpt-4.1-mini")
        /\ (env !! "AZURE_OPENAI_DEPLOYMENT_EMBEDDING" = None ->
            deployment_embedding config = "text-embedding-ada-002")).
Proof.
  split.
  - intros Hmissing.
    assert (Hinit : exists name,
               (name = "AZURE_OPENAI_ENDPOINT" \/ name = "AZURE_OPENAI_KEY")
               /\ ~ resolvable env name
               /\ AzureOpenAIConfig_init env
                  = Raise (ValueError
                             ("Missing required environment variable: " +:+ name))).
    { unfold AzureOpenAIConfig_init.
      destruct (_get_required_env env "AZURE_OPENAI_ENDPOINT") as [ep|e] eqn:Hep.
      - destruct Hmissing as [Hm|Hm].
        + rewrite (_get_required_env_unresolvable _ _ Hm) in Hep. discriminate.
        + exists "AZURE_OPENAI_KEY". split; [right; reflexivity|].
          split; [exact Hm|].
          rewrite (_get_required_env_unresolvable _ _ Hm). reflexivity.
      - exists "AZURE_OPENAI_ENDPOINT". split; [left; reflexivity|].
        unfold _get_required_env in Hep.
        destruct (env !! "AZURE_OPENAI_ENDPOINT") as [v|] eqn:Hv.
        + destruct v as [|c v]; [|discriminate].
          split; [intros (v' & Hv' & Hne); congruence|].
          simpl in Hep. injection Hep as <-. reflexivity.
        + split; [intros (v' & Hv' & _); congruence|].
          injection Hep as <-. reflexivity. }
    destruct Hinit as (name & Hname & Hunres & Hinit).
    exists name. split; [exact Hname|]. split; [exact Hunres|].
    intros e.
    assert (Hmod : module_init env = (Raise e, [LogCritical e])).
    { unfold module_init. rewrite Hinit. reflexivity. }
    split; [exact Hinit|]. split; [exact Hmod|].
    intros P pv w utcnow.
    eexists. eexists.
    split; [reflexivity|]. split; [reflexivity|].
    unfold ai_health_check, bind, import_openai_provider.
    cbn [fresh_process openai_provider].
    rewrite Hmod. reflexivity.
  - intros (ep & Hep & Hepne) (key & Hkey & Hkeyne).
    unfold module_init, AzureOpenAIConfig_init.
    rewrite (_get_required_env_resolvable _ _ _ Hep Hepne).
    rewrite (_get_required_env_resolvable _ _ _ Hkey Hkeyne).
    eexists. eexists. split; [reflexivity|]. split; [reflexivity|].
    split; [reflexivity|]. simpl.
    split; [exact Hep|]. split; [exact Hkey|].
    unfold _get_optional_env.
    repeat split; intros ->; reflexivity.
Qed.

Lemma AzureOpenAIConfig_required_and_defaults_witness :
  (let env : environ :=
     <["AZURE_OPENAI_ENDPOINT" := "https://example.openai.azure.com"]> ∅ in
   let e :=
     ValueError "Missing required environment variable: AZURE_OPENAI_KEY" in
   module_init env = (Raise e, [LogCritical e])
   /\ (exists m l,
         start_process env (initial_world tt)
         = Return (m, l, fresh_process (initial_world tt)))
   /\ fst (ai_health_check env (stub_provider None byte_embedding)
             (fresh_process (initial_world tt)))
      = HTTPException 503
          "AI service unavailable: Missing required environment variable: AZURE_OPENAI_KEY")
  /\ (exists config,
        AzureOpenAIConfig_init minimal_environ = Return config
        /\ chat_api_version config = "2024-12-01-preview"
        /\ embedding_api_version config = "2023-05-15"
        /\ deployment_chat config = "gpt-4.1"
        /\ deployment_chat_mini config = "gpt-4.1-mini"
        /\ deployment_embedding config = "text-embedding-ada-002").
Proof.
  split.
  - intros env e.
    destruct (AzureOpenAIConfig_required_and_defaults env) as [Hraise _].
    destruct Hraise as (name & Hname & Hunres & _ & Hm & Hstart).
    + right. intros (v & Hv & _). vm_compute in Hv. discriminate.
    + assert (Hkey : name = "AZURE_OPENAI_KEY").
      { destruct Hname as [->| ->]; [|reflexivity].
        exfalso. apply Hunres. eexists.
        split; [vm_compute; reflexivity | discriminate]. }
      subst name.
      destruct (Hstart unit (stub_provider None byte_embedding)
                  (initial_world tt) "2026-01-01T00:00:00")
        as (m & l & Hs & _ & Hai).
      split; [exact Hm|].
      split; [exists m, l; exact Hs|].
      rewrite Hai. reflexivity.
  - destruct (AzureOpenAIConfig_required_and_defaults minimal_environ)
      as [_ Hok].
    destruct Hok as (config & g & Hc & _ & _ & _ & _ & H1 & H2 & H3 & H4 & H5).
    + eexists. split; [vm_compute; reflexivity | discriminate].
    + eexists. split; [vm_compute; reflexivity | discriminate].
    + exists config. split; [exact Hc|].
      split; [apply H1; vm_compute; reflexivity|].
      split; [apply H2; vm_compute; reflexivity|].
      split; [apply H3; vm_compute; reflexivity|].
      split; [apply H4; vm_compute; reflexivity|].
      apply H5. vm_compute. reflexivity.
Defined.

(** C9 fails as stated: in an empty environment neither the endpoint nor
    the key can be resolved and building the configuration raises, yet
    the process starts: the body of [main.py] runs to its end without
    importing the provider module, the basic health endpoint answers
    "healthy", and the AI health endpoint answers 503. *)
Lemma start_process_without_configuration :
  ~ resolvable (∅ : environ) "AZURE_OPENAI_ENDPOINT"
  /\ ~ resolvable (∅ : environ) "AZURE_OPENAI_KEY"
  /\ AzureOpenAIConfig_init (∅ : environ)
     = Raise (ValueError
                "Missing required environment variable: AZURE_OPENAI_ENDPOINT")
  /\ (let m :=
        mk_main_globals "development"
          ["http://localhost:5173"; "http://localhost:3000"] in
      start_process (∅ : environ) (initial_world tt)
      = Return (m, [LogStarting "development"], fresh_process (initial_world tt))
      /\ health_check m "2026-01-01T00:00:00"
         = Respond (mk_health "healthy" "2026-01-01T00:00:00" "development" "1.0.0"))
  /\ fst (ai_health_check (∅ : environ) (stub_provider None byte_embedding)
            (fresh_process (initial_world tt)))
     = HTTPException 503
         "AI service unavailable: Missing required environment variable: AZURE_OPENAI_ENDPOINT".
Proof.
  split; [intros (v & Hv & _); vm_compute in Hv; discriminate|].
  split; [intros (v & Hv & _); vm_compute in Hv; discriminate|].
  split; [vm_compute; reflexivity|].
  split; [split; vm_compute; reflexivity|].
  vm_compute. reflexivity.
Qed.

(** * Further properties *)

(** ** The shape of every run of [with_retry] *)

Lemma transient_retry (e : exn) (reason : string) :
  except_clause e = Retry reason -> transient e = true.
Proof. intros H. unfold transient. rewrite H. reflexivity. Qed.

Lemma transient_not_retry (e : exn) :
  (forall reason, except_clause e <> Retry reason) -> transient e = false.
Proof.
  intros H. unfold transient. destruct (except_clause e) eqn:Hc; try reflexivity.
  exfalso. exact (H _ eq_refl).
Qed.

Lemma sleeps_emit_log {St} (r : log_record) (st : retry_state St) :
  sleeps (effects (emit (Log r) st)) = sleeps (effects st).
Proof. simpl. rewrite sleeps_app. simpl. apply app_nil_r. Qed.

Lemma sleeps_emit_sleep {St} (w : Z) (st : retry_state St) :
  sleeps (effects (emit (Sleep w) st)) = sleeps (effects st) ++ [w].
Proof. simpl. rewrite sleeps_app. reflexivity. Qed.

Lemma sleeps_set_inner {St} (s : St) (st : retry_state St) :
  sleeps (effects (set_inner s st)) = sleeps (effects st).
Proof. reflexivity. Qed.

Lemma inner_emit {St} (e : effect) (st : retry_state St) :
  inner (emit e st) = inner st.
Proof. reflexivity. Qed.

Lemma inner_set_inner {St} (s : St) (st : retry_state St) :
  inner (set_inner s st) = s.
Proof. reflexivity. Qed.

(** One round of the loop, by the outcome of the invocation. *)
Lemma retry_loop_returns {St A} (max_retries : Z) (func : M St A) (a : Z)
    (rest : list Z) (last : option exn) (st : retry_state St) (v : A) (s' : St) :
  func (inner st) = (Return v, s') ->
  retry_loop max_retries func (a :: rest) last st = (Return v, set_inner s' st).
Proof. intros Hf. cbn [retry_loop]. rewrite Hf. reflexivity. Qed.

Lemma retry_loop_retries {St A} (max_retries : Z) (func : M St A) (a : Z)
    (rest : list Z) (last : option exn) (st : retry_state St) (e : exn) (s' : St)
    (reason : string) :
  func (inner st) = (Raise e, s') ->
  except_clause e = Retry reason ->
  retry_loop max_retries func (a :: rest) last st
  = retry_loop max_retries func rest (Some e)
      (emit (Sleep (wait_time a))
         (emit (Log (LogRetry reason (wait_time a) (a + 1) max_retries))
            (set_inner s' st))).
Proof. intros Hf Hc. cbn [retry_loop]. rewrite Hf, Hc. reflexivity. Qed.

(** Whatever the wrapped function does, the loop invokes it [n] times
    with [n] between 1 and the number of attempts, every invocation but
    the last failed transiently, the outcome of the loop is the outcome
    of the last invocation, and the loop slept after every transient
    failure. *)
Lemma retry_loop_shape {St A} (max_retries : Z) (func : M St A)
    (rest : list Z) :
  forall (a : Z) (last : option exn) (st : retry_state St),
    let res := retry_loop max_retries func (a :: rest) last st in
    exists n : nat,
      (1 <= n <= length (a :: rest))%nat
      /\ inner (snd res) = after func n (inner st)
      /\ fst res = nth_outcome func (n - 1) (inner st)
      /\ (forall i, (i < n - 1)%nat ->
                    fails_transiently (nth_outcome func i (inner st)))
      /\ ((~ fails_transiently (fst res)
           /\ sleeps (effects (snd res))
              = sleeps (effects st) ++ map wait_time (firstn (n - 1) (a :: rest)))
          \/ (fails_transiently (fst res)
              /\ n = length (a :: rest)
              /\ sleeps (effects (snd res))
                 = sleeps (effects st) ++ map wait_time (a :: rest))).
Proof.
  induction rest as [|b rest' IH]; intros a last st res; subst res;
    destruct (func (inner st)) as [r s'] eqn:Hf;
    assert (Hn : nth_outcome func 0 (inner st) = r)
      by (unfold nth_outcome; simpl; rewrite Hf; reflexivity);
    assert (Ha : after func 1 (inner st) = s')
      by (simpl; rewrite Hf; reflexivity).
  - (* one attempt left *)
    exists 1%nat. change (1 - 1)%nat with 0%nat. rewrite Hn, Ha.
    split; [simpl; lia|].
    destruct r as [v|e].
    + rewrite (retry_loop_returns _ _ _ _ _ _ _ _ Hf).
      split; [reflexivity|]. split; [reflexivity|].
      split; [intros i Hi; lia|].
      left. split; [simpl; tauto|]. simpl. rewrite app_nil_r. reflexivity.
    + destruct (except_clause e) as [reason|sc msg|] eqn:Hc.
      * rewrite (retry_loop_retries _ _ _ _ _ _ _ _ _ Hf Hc). simpl retry_loop.
        split; [reflexivity|]. split; [reflexivity|].
        split; [intros i Hi; lia|].
        right. split; [exact (transient_retry e reason Hc)|].
        split; [reflexivity|].
        cbn [snd]. rewrite sleeps_emit_log, sleeps_emit_sleep, sleeps_emit_log.
        reflexivity.
      * cbn [retry_loop]. rewrite Hf, Hc. cbn [fst snd].
        split; [reflexivity|]. split; [reflexivity|].
        split; [intros i Hi; lia|].
        left. split; [simpl; unfold transient; rewrite Hc; discriminate|].
        rewrite sleeps_emit_log. simpl. rewrite app_nil_r. reflexivity.
      * cbn [retry_loop]. rewrite Hf, Hc. cbn [fst snd].
        split; [reflexivity|]. split; [reflexivity|].
        split; [intros i Hi; lia|].
        left. split; [simpl; unfold transient; rewrite Hc; discriminate|].
        simpl. rewrite app_nil_r. reflexivity.
  - (* more attempts left *)
    destruct r as [v|e].
    + exists 1%nat. change (1 - 1)%nat with 0%nat. rewrite Hn, Ha.
      rewrite (retry_loop_returns _ _ _ _ _ _ _ _ Hf).
      split; [simpl; lia|]. split; [reflexivity|]. split; [reflexivity|].
      split; [intros i Hi; lia|].
      left. split; [simpl; tauto|]. simpl. rewrite app_nil_r. reflexivity.
    + destruct (except_clause e) as [reason|sc msg|] eqn:Hc.
      * rewrite (retry_loop_retries _ _ _ _ _ _ _ _ _ Hf Hc).
        set (st1 := emit (Sleep (wait_time a)) _).
        assert (Hin : inner st1 = s') by reflexivity.
        assert (Hsl : sleeps (effects st1) = sleeps (effects st) ++ [wait_time a]).
        { unfold st1. rewrite sleeps_emit_sleep, sleeps_emit_log. reflexivity. }
        destruct (IH b (Some e) st1) as (n & Hrange & Hi & Ho & Hfail & Hs).
        rewrite Hin in Hi, Ho, Hfail. rewrite Hsl in Hs.
        exists (S n).
        split; [simpl in Hrange |- *; lia|].
        split; [rewrite Hi; simpl; rewrite Hf; reflexivity|].
        split.
        { rewrite Ho. replace (S n - 1)%nat with (S (n - 1)) by lia.
          unfold nth_outcome. simpl. rewrite Hf. reflexivity. }
        split.
        { intros i Hlt. destruct i as [|i].
          - rewrite Hn. exact (transient_retry e reason Hc).
          - unfold nth_outcome. simpl. rewrite Hf. apply Hfail. lia. }
        destruct Hs as [[Hnf Hs]|(Hf' & Hlen & Hs)].
        -- left. split; [exact Hnf|]. rewrite Hs.
           replace (S n - 1)%nat with (S (n - 1)) by lia.
           simpl firstn. simpl map. rewrite <- app_assoc. reflexivity.
        -- right. split; [exact Hf'|]. split; [simpl in Hlen |- *; lia|].
           rewrite Hs. simpl map. rewrite <- app_assoc. reflexivity.
      * exists 1%nat. change (1 - 1)%nat with 0%nat. rewrite Hn, Ha.
        cbn [retry_loop]. rewrite Hf, Hc. cbn [fst snd].
        split; [simpl; lia|]. split; [reflexivity|]. split; [reflexivity|].
        split; [intros i Hi; lia|].
        left. split; [simpl; unfold transient; rewrite Hc; discriminate|].
        rewrite sleeps_emit_log. simpl. rewrite app_nil_r. reflexivity.
      * exists 1%nat. change (1 - 1)%nat with 0%nat. rewrite Hn, Ha.
        cbn [retry_loop]. rewrite Hf, Hc. cbn [fst snd].
        split; [simpl; lia|]. split; [reflexivity|]. split; [reflexivity|].
        split; [intros i Hi; lia|].
        left. split; [simpl; unfold transient; rewrite Hc; discriminate|].
        simpl. rewrite app_nil_r. reflexivity.
Qed.



(** X2: with [max_retries] at most 0 the loop body never runs: the
    function is not invoked, nothing is slept, and [raise last_exception]
    with [last_exception = None] raises [TypeError]. *)
Theorem with_retry_no_attempts {Args St A} (max_retries : Z)
    (func : Args -> M St A) (args : Args) (s : St) :
  max_retries <= 0 ->
  with_retry max_retries (fun a => counted (func a)) args (fresh s)
  = (Raise (TypeError "exceptions must derive from BaseException"),
     mk_retry_state (s, O) [Log (LogExhausted max_retries)]).
Proof.
  intros Hn. unfold with_retry, range.
  replace (Z.to_nat max_retries) with O by lia. reflexivity.
Qed.

Lemma with_retry_no_attempts_witness :
  with_retry 0 (fun _ : unit => counted (succeeds_at 1 (ValueError "no") "done"))
    tt (fresh O)
  = (Raise (TypeError "exceptions must derive from BaseException"),
     mk_retry_state (O, O) [Log (LogExhausted 0)]).
Proof.
  apply (with_retry_no_attempts 0
           (fun _ : unit => succeeds_at 1 (ValueError "no") "done") tt O).
  lia.
Defined.

(** X4: an exception that is none of the four [openai] classes the
    wrapper catches leaves the wrapper at the first invocation, with no
    log record and no sleep. *)
Theorem with_retry_other_exception {Args St A} (max_retries : Z)
    (func : Args -> M St A) (args : Args) (s s' : St) (e : exn) (msg : string) :
  1 <= max_retries ->
  e = ValueError msg \/ e = TypeError msg \/ e = IndexError msg ->
  func args s = (Raise e, s') ->
  with_retry max_retries (fun a => counted (func a)) args (fresh s)
  = (Raise e, mk_retry_state (s', 1%nat) []).
Proof.
  intros Hn He Hf. unfold with_retry.
  destruct (range_cons _ Hn) as [rest ->]. cbn [retry_loop].
  unfold counted at 1. simpl. rewrite Hf.
  destruct He as [->|[->| ->]]; reflexivity.
Qed.

Lemma with_retry_other_exception_witness :
  with_retry MAX_RETRIES
    (fun _ : unit => counted (always_raises (A := string) (St := unit)
                                (ValueError "bad input")))
    tt (fresh tt)
  = (Raise (ValueError "bad input"), mk_retry_state (tt, 1%nat) []).
Proof.
  apply (with_retry_other_exception MAX_RETRIES
           (fun _ : unit => always_raises (ValueError "bad input"))
           tt tt tt (ValueError "bad input") "bad input").
  - unfold MAX_RETRIES. lia.
  - left. reflexivity.
  - reflexivity.
Defined.

(** X5: a status error whose status is not from 400 to 499 is retried:
    when the next invocation returns, the wrapper has logged one warning
    that names the wait, the attempt number counted from 1 and
    [max_retries], has slept [INITIAL_BACKOFF] once, and returns the
    result. *)
Theorem with_retry_server_error_retried {Args St A} (max_retries : Z)
    (func : Args -> M St A) (args : Args) (s s1 s2 : St) (sc : Z) (msg : string)
    (v : A) :
  2 <= max_retries ->
  sc < 400 \/ 500 <= sc ->
  func args s = (Raise (APIStatusError sc msg), s1) ->
  func args s1 = (Return v, s2) ->
  with_retry max_retries (fun a => counted (func a)) args (fresh s)
  = (Return v,
     mk_retry_state (s2, 2%nat)
       [Log (LogRetry "API error" INITIAL_BACKOFF 1 max_retries);
        Sleep INITIAL_BACKOFF]).
Proof.
  intros Hn Hsc Hf1 Hf2. unfold with_retry, range.
  destruct (Z.to_nat max_retries) as [|[|m]] eqn:Hm; try lia.
  simpl seq. simpl map. cbn [retry_loop].
  unfold counted at 1. simpl. rewrite Hf1.
  assert (Hc : except_clause (APIStatusError sc msg) = Retry "API error").
  { simpl. destruct Hsc as [Hlt|Hge].
    - replace (400 <=? sc) with false by (symmetry; apply Z.leb_gt; lia).
      reflexivity.
    - replace (sc <? 500) with false by (symmetry; apply Z.ltb_ge; lia).
      rewrite andb_false_r. reflexivity. }
  rewrite Hc. cbv zeta. simpl inner. unfold counted at 1. simpl. rewrite Hf2.
  reflexivity.
Qed.

Lemma with_retry_server_error_retried_witness :
  with_retry MAX_RETRIES
    (fun _ : unit =>
       counted (succeeds_at 2 (APIStatusError 503 "Service Unavailable") "done"))
    tt (fresh O)
  = (Return "done",
     mk_retry_state (2%nat, 2%nat)
       [Log (LogRetry "API error" INITIAL_BACKOFF 1 MAX_RETRIES);
        Sleep INITIAL_BACKOFF]).
Proof.
  apply (with_retry_server_error_retried MAX_RETRIES
           (fun _ : unit =>
              succeeds_at 2 (APIStatusError 503 "Service Unavailable") "done")
           tt O 1%nat 2%nat 503 "Service Unavailable" "done").
  - unfold MAX_RETRIES. lia.
  - right. lia.
  - reflexivity.
  - reflexivity.
Defined.

(** X6: a status error with a status from 400 to 499 is logged once, as
    an error with its status and message, and re-raised; the wrapper
    performs no other effect. *)
Theorem with_retry_client_error_logged {Args St A} (max_retries : Z)
    (func : Args -> M St A) (args : Args) (s s' : St) (sc : Z) (msg : string) :
  1 <= max_retries ->
  400 <= sc < 500 ->
  func args s = (Raise (APIStatusError sc msg), s') ->
  with_retry max_retries (fun a => counted (func a)) args (fresh s)
  = (Raise (APIStatusError sc msg),
     mk_retry_state (s', 1%nat) [Log (LogApiError sc msg)]).
Proof.
  intros Hn Hsc Hf. unfold with_retry.
  destruct (range_cons _ Hn) as [rest ->]. cbn [retry_loop].
  unfold counted at 1. simpl. rewrite Hf.
  assert (Hc : except_clause (APIStatusError sc msg) = LogAndReraise sc msg).
  { simpl.
    replace (400 <=? sc) with true by (symmetry; apply Z.leb_le; lia).
    replace (sc <? 500) with true by (symmetry; apply Z.ltb_lt; lia).
    reflexivity. }
  rewrite Hc. reflexivity.
Qed.

Lemma with_retry_client_error_logged_witness :
  with_retry MAX_RETRIES
    (fun _ : unit => counted (always_raises (A := string) (St := unit)
                                (APIStatusError 401 "Unauthorized")))
    tt (fresh tt)
  = (Raise (APIStatusError 401 "Unauthorized"),
     mk_retry_state (tt, 1%nat) [Log (LogApiError 401 "Unauthorized")]).
Proof.
  apply (with_retry_client_error_logged MAX_RETRIES
           (fun _ : unit => always_raises (APIStatusError 401 "Unauthorized"))
           tt tt tt 401 "Unauthorized").
  - unfold MAX_RETRIES. lia.
  - lia.
  - reflexivity.
Defined.

(** ** More on the operation functions *)

Lemma generate_embedding_body_requests {P} (pv : provider P) (g : globals)
    (text : string) (w : world P) :
  requests (snd (generate_embedding_body pv g text w))
  = requests w
    ++ [EmbeddingsRequest (azure_openai_async_embedding_client g)
          {| ekw_model := get_embedding_deployment g;
             ekw_input := InputText text |}].
Proof.
  unfold generate_embedding_body, bind, embeddings_create.
  destruct (embeddings_endpoint pv _ _ (remote w)) as [[resp|e] p']; [|reflexivity].
  destruct (data resp) as [|item items]; reflexivity.
Qed.

(** X7: when the provider answers, [generate_embedding] sends one
    request, whose input is the text itself and whose model is the
    embedding deployment, and returns the vector of the first item of the
    response; the wrapper neither logs nor sleeps. *)
Theorem generate_embedding_first_vector {P} (pv : provider P) (g : globals)
    (text : string) (w : world P) (item : embedding_item)
    (items : list embedding_item) (p' : P) :
  embeddings_endpoint pv (azure_openai_async_embedding_client g)
    {| ekw_model := deployment_embedding (_config g); ekw_input := InputText text |}
    (remote w)
  = (Return (mk_embeddings_response (item :: items)), p') ->
  generate_embedding pv g text (start w)
  = (Return (embedding item),
     mk_retry_state
       (mk_world p'
          (requests w
             ++ [EmbeddingsRequest (azure_openai_async_embedding_client g)
                   {| ekw_model := deployment_embedding (_config g);
                      ekw_input := InputText text |}])
          (logged w))
       []).
Proof.
  intros H. unfold generate_embedding.
  erewrite with_retry_first_success; [reflexivity | apply MAX_RETRIES_pos |].
  unfold generate_embedding_body, bind, embeddings_create.
  simpl. unfold get_embedding_deployment. rewrite H. reflexivity.
Qed.

Lemma generate_embedding_first_vector_witness :
  fst (generate_embedding (stub_provider None byte_embedding) example_globals
         "ab" (start (initial_world tt)))
  = Return (byte_embedding "ab").
Proof.
  rewrite (generate_embedding_first_vector (stub_provider None byte_embedding)
             example_globals "ab" (initial_world tt)
             (mk_item (byte_embedding "ab")) [] tt eq_refl).
  reflexivity.
Defined.

(** X8: when the response carries no item, [response.data[0]] raises
    [IndexError]; the wrapper does not retry it: one request, no sleep. *)
Theorem generate_embedding_empty_data {P} (pv : provider P) (g : globals)
    (text : string) (w : world P) (p' : P) :
  embeddings_endpoint pv (azure_openai_async_embedding_client g)
    {| ekw_model := deployment_embedding (_config g); ekw_input := InputText text |}
    (remote w)
  = (Return (mk_embeddings_response []), p') ->
  let res := generate_embedding pv g text (start w) in
  fst res = Raise (IndexError "list index out of range")
  /\ length (requests (inner (snd res))) = S (length (requests w))
  /\ effects (snd res) = [].
Proof.
  intros H res. subst res. unfold generate_embedding, with_retry.
  destruct (range_cons _ MAX_RETRIES_pos) as [rest ->]. cbn [retry_loop].
  unfold generate_embedding_body, bind, embeddings_create.
  simpl. unfold get_embedding_deployment. rewrite H. simpl.
  rewrite length_app. simpl. repeat split. lia.
Qed.

(** A provider whose embeddings endpoint answers without any item. *)
Lemma generate_embedding_empty_data_witness :
  let silent : provider unit :=
    {| chat_endpoint := fun _ _ p => (Return (mk_chat_response []), p);
       embeddings_endpoint := fun _ _ p => (Return (mk_embeddings_response []), p) |} in
  fst (generate_embedding silent example_globals "ab" (start (initial_world tt)))
  = Raise (IndexError "list index out of range").
Proof.
  intros silent.
  destruct (generate_embedding_empty_data silent example_globals "ab"
              (initial_world tt) tt eq_refl) as [H _].
  exact H.
Defined.

(** X9: [generate_embeddings_batch] returns the vectors of the items of
    the response, in the order of the response and as many as the response
    has: it neither reorders them nor compares their number with the
    number of texts. *)
Theorem generate_embeddings_batch_follows_response {P} (pv : provider P)
    (g : globals) (texts : list string) (w : world P)
    (resp : embeddings_response) (p' : P) :
  embeddings_endpoint pv (azure_openai_async_embedding_client g)
    {| ekw_model := deployment_embedding (_config g);
       ekw_input := InputTexts texts |}
    (remote w)
  = (Return resp, p') ->
  let res := generate_embeddings_batch pv g texts (start w) in
  fst res = Return (map embedding (data resp))
  /\ (forall vectors, fst res = Return vectors ->
        length vectors = length (data resp))
  /\ requests (inner (snd res)) = requests w ++ [batch_request g texts]
  /\ effects (snd res) = [].
Proof.
  intros H res.
  assert (Hres : res = (Return (map embedding (data resp)),
                        set_inner
                          (mk_world p' (requests w ++ [batch_request g texts])
                             (logged w)) (start w))).
  { apply with_retry_first_success; [apply MAX_RETRIES_pos|].
    unfold generate_embeddings_batch_body, bind, embeddings_create.
    simpl. unfold get_embedding_deployment. rewrite H. reflexivity. }
  rewrite Hres. simpl. split; [reflexivity|]. split.
  - intros vectors Hv. injection Hv as <-. apply length_map.
  - split; reflexivity.
Qed.

(** A provider that answers every batch with a single item. *)
Lemma generate_embeddings_batch_follows_response_witness :
  let short : provider unit :=
    {| chat_endpoint := fun _ _ p => (Return (mk_chat_response []), p);
       embeddings_endpoint := fun _ _ p =>
         (Return (mk_embeddings_response [mk_item [1%Q]]), p) |} in
  fst (generate_embeddings_batch short example_globals ["a"; "b"; "c"]
         (start (initial_world tt)))
  = Return [[1%Q]].
Proof.
  intros short.
  destruct (generate_embeddings_batch_follows_response short example_globals
              ["a"; "b"; "c"] (initial_world tt)
              (mk_embeddings_response [mk_item [1%Q]]) tt eq_refl) as [H _].
  exact H.
Defined.

(** X10: when the response carries no choice, [response.choices[0]]
    raises [IndexError]; the wrapper does not retry it: one request, no
    log record and no sleep. *)
Theorem chat_completion_empty_choices {P} (pv : provider P) (g : globals)
    (a : chat_args) (w : world P) (p' : P) :
  chat_endpoint pv (azure_openai_async_client g) (build_kwargs g a) (remote w)
  = (Return (mk_chat_response []), p') ->
  chat_completion pv g a (start w)
  = (Raise (IndexError "list index out of range"),
     mk_retry_state
       (mk_world p'
          (requests w
             ++ [ChatRequest (azure_openai_async_client g) (build_kwargs g a)])
          (logged w))
       []).
Proof.
  intros H. unfold chat_completion, with_retry.
  destruct (range_cons _ MAX_RETRIES_pos) as [rest ->]. cbn [retry_loop].
  unfold chat_completion_body, bind, chat_completions_create.
  simpl. rewrite H. reflexivity.
Qed.

Lemma chat_completion_empty_choices_witness :
  let silent : provider unit :=
    {| chat_endpoint := fun _ _ p => (Return (mk_chat_response []), p);
       embeddings_endpoint := fun _ _ p => (Return (mk_embeddings_response []), p) |} in
  fst (chat_completion silent example_globals (chat_defaults [])
         (start (initial_world tt)))
  = Raise (IndexError "list index out of range").
Proof.
  intros silent.
  rewrite (chat_completion_empty_choices silent example_globals (chat_defaults [])
             (initial_world tt) tt eq_refl).
  reflexivity.
Defined.

(** ** Requests sent under retry *)

Lemma requests_after_body_repeat {P} (pv : provider P) (g : globals)
    (a : chat_args) (i : nat) (w : world P) :
  requests (after (chat_completion_body pv g a) i w)
  = requests w
    ++ repeat (ChatRequest (azure_openai_async_client g) (build_kwargs g a)) i.
Proof.
  revert w. induction i as [|i IH]; intros w.
  - simpl. rewrite app_nil_r. reflexivity.
  - simpl after. rewrite IH, chat_completion_body_requests, <- app_assoc.
    reflexivity.
Qed.

Lemma chat_completion_extends {P} (pv : provider P) (g : globals)
    (a : chat_args) (st : retry_state (world P)) :
  exists n : nat,
    (1 <= n <= 3)%nat
    /\ requests (inner (snd (chat_completion pv g a st)))
       = requests (inner st)
         ++ repeat (ChatRequest (azure_openai_async_client g) (build_kwargs g a)) n.
Proof.
  unfold chat_completion, with_retry.
  destruct (range_cons _ MAX_RETRIES_pos) as [rest Hr].
  assert (Hlen : length rest = 2%nat).
  { apply (f_equal (@length Z)) in Hr. rewrite range_length in Hr.
    simpl in Hr. unfold MAX_RETRIES in Hr. simpl in Hr. lia. }
  rewrite Hr.
  destruct (retry_loop_shape MAX_RETRIES (chat_completion_body pv g a) rest 0
              None st) as (n & Hrange & Hi & _).
  exists n. split; [simpl in Hrange; lia|].
  rewrite Hi. apply requests_after_body_repeat.
Qed.

(** X11: whatever the provider does, one call of [chat_completion] sends
    between 1 and [MAX_RETRIES] requests, and they are all the same
    request: the one built from the arguments. *)
Theorem chat_completion_requests {P} (pv : provider P) (g : globals)
    (a : chat_args) (w : world P) :
  exists n : nat,
    (1 <= n)%nat
    /\ Z.of_nat n <= MAX_RETRIES
    /\ requests (inner (snd (chat_completion pv g a (start w))))
       = requests w
         ++ repeat (ChatRequest (azure_openai_async_client g) (build_kwargs g a)) n.
Proof.
  destruct (chat_completion_extends pv g a (start w)) as (n & Hn & Hreq).
  exists n. unfold MAX_RETRIES. split; [lia|]. split; [lia|]. exact Hreq.
Qed.

Lemma chat_completion_json_body_extends {P} (json_loads : string -> loads_result)
    (pv : provider P) (g : globals) (a : json_args) (st : retry_state (world P)) :
  exists n : nat,
    (1 <= n <= 3)%nat
    /\ requests (inner (snd (chat_completion_json_body json_loads pv g a st)))
       = requests (inner st)
         ++ repeat (ChatRequest (azure_openai_async_client g)
                      (build_kwargs g (json_chat_args a))) n.
Proof.
  destruct (chat_completion_extends pv g (json_chat_args a) st) as (n & Hn & Hreq).
  exists n. split; [exact Hn|].
  unfold chat_completion_json_body, bind.
  destruct (chat_completion pv g (json_chat_args a) st) as [[content|e] st'];
    simpl in Hreq |- *; [|exact Hreq].
  destruct (json_loads content); exact Hreq.
Qed.

Lemma requests_after_json_body_repeat {P} (json_loads : string -> loads_result)
    (pv : provider P) (g : globals) (a : json_args) (i : nat) :
  forall st : retry_state (world P),
  exists n : nat,
    (i <= n <= 3 * i)%nat
    /\ requests (inner (after (chat_completion_json_body json_loads pv g a) i st))
       = requests (inner st)
         ++ repeat (ChatRequest (azure_openai_async_client g)
                      (build_kwargs g (json_chat_args a))) n.
Proof.
  induction i as [|i IH]; intros st.
  - exists 0%nat. split; [lia|]. simpl. rewrite app_nil_r. reflexivity.
  - destruct (chat_completion_json_body_extends json_loads pv g a st)
      as (m & Hm & Hreq).
    destruct (IH (snd (chat_completion_json_body json_loads pv g a st)))
      as (n & Hn & Hreq').
    exists (m + n)%nat. split; [lia|].
    simpl after. rewrite Hreq', Hreq, <- app_assoc, repeat_app. reflexivity.
Qed.

(** X12: whatever the provider and the decoder do, one call of
    [chat_completion_json] sends between 1 and [MAX_RETRIES * MAX_RETRIES]
    requests, all of them the same request, which asks for the
    [json_object] response format with the temperature and the token
    bound of the call. *)
Theorem chat_completion_json_requests {P} (json_loads : string -> loads_result)
    (pv : provider P) (g : globals) (a : json_args) (w : world P) :
  let req :=
    ChatRequest (azure_openai_async_client g) (build_kwargs g (json_chat_args a)) in
  let res := chat_completion_json json_loads pv g a (start (start w)) in
  (exists n : nat,
      (1 <= n)%nat
      /\ Z.of_nat n <= MAX_RETRIES * MAX_RETRIES
      /\ requests (inner (inner (snd res))) = requests w ++ repeat req n)
  /\ kw_response_format (build_kwargs g (json_chat_args a))
     = Some [("type", "json_object")]
  /\ kw_temperature (build_kwargs g (json_chat_args a)) = Some (j_temperature a)
  /\ kw_max_tokens (build_kwargs g (json_chat_args a)) = j_max_tokens a
  /\ kw_messages (build_kwargs g (json_chat_args a)) = j_messages a.
Proof.
  intros req res. split; [|repeat split].
  subst res. unfold chat_completion_json, with_retry.
  destruct (range_cons _ MAX_RETRIES_pos) as [rest Hr].
  assert (Hlen : length rest = 2%nat).
  { apply (f_equal (@length Z)) in Hr. rewrite range_length in Hr.
    simpl in Hr. unfold MAX_RETRIES in Hr. simpl in Hr. lia. }
  rewrite Hr.
  destruct (retry_loop_shape MAX_RETRIES
              (chat_completion_json_body json_loads pv g a) rest 0 None
              (start (start w))) as (k & Hrange & Hi & _).
  destruct (requests_after_json_body_repeat json_loads pv g a k (start w))
    as (n & Hn & Hreq).
  exists n. simpl in Hrange.
  split; [lia|]. split; [unfold MAX_RETRIES; lia|].
  rewrite Hi. exact Hreq.
Qed.

(** X13: a status error with a status from 400 to 499 costs one request
    through [chat_completion_json] as well: the wrapper of
    [chat_completion] logs it and re-raises it, the wrapper of
    [chat_completion_json] logs it again and re-raises it, and neither
    sleeps. *)
Theorem chat_completion_json_client_error {P}
    (json_loads : string -> loads_result) (pv : provider P) (g : globals)
    (a : json_args) (w : world P) (sc : Z) (msg : string) (p' : P) :
  400 <= sc < 500 ->
  chat_endpoint pv (azure_openai_async_client g)
    (build_kwargs g (json_chat_args a)) (remote w)
  = (Raise (APIStatusError sc msg), p') ->
  chat_completion_json json_loads pv g a (start (start w))
  = (Raise (APIStatusError sc msg),
     mk_retry_state
       (mk_retry_state
          (mk_world p'
             (requests w
                ++ [ChatRequest (azure_openai_async_client g)
                      (build_kwargs g (json_chat_args a))])
             (logged w))
          [Log (LogApiError sc msg)])
       [Log (LogApiError sc msg)]).
Proof.
  intros Hsc H.
  assert (Hc : except_clause (APIStatusError sc msg) = LogAndReraise sc msg).
  { simpl.
    replace (400 <=? sc) with true by (symmetry; apply Z.leb_le; lia).
    replace (sc <? 500) with true by (symmetry; apply Z.ltb_lt; lia).
    reflexivity. }
  assert (Hinner :
    chat_completion pv g (json_chat_args a) (start w)
    = (Raise (APIStatusError sc msg),
       mk_retry_state
         (mk_world p'
            (requests w
               ++ [ChatRequest (azure_openai_async_client g)
                     (build_kwargs g (json_chat_args a))])
            (logged w))
         [Log (LogApiError sc msg)])).
  { unfold chat_completion, with_retry.
    destruct (range_cons _ MAX_RETRIES_pos) as [rest ->]. cbn [retry_loop].
    unfold chat_completion_body at 1, bind, chat_completions_create.
    simpl inner. simpl remote. rewrite H. rewrite Hc. reflexivity. }
  unfold chat_completion_json, with_retry.
  destruct (range_cons _ MAX_RETRIES_pos) as [rest ->]. cbn [retry_loop].
  unfold chat_completion_json_body at 1, bind. simpl inner.
  rewrite Hinner. rewrite Hc. reflexivity.
Qed.

Lemma chat_completion_json_client_error_witness :
  fst (chat_completion_json json_loads_fragment
         (failing_provider (APIStatusError 404 "Not Found")) example_globals
         (json_defaults []) (start (start (initial_world tt))))
  = Raise (APIStatusError 404 "Not Found").
Proof.
  rewrite (chat_completion_json_client_error json_loads_fragment
             (failing_provider (APIStatusError 404 "Not Found")) example_globals
             (json_defaults []) (initial_world tt) 404 "Not Found" tt
             ltac:(lia) eq_refl).
  reflexivity.
Defined.

(** X14: [quick_analysis] sends the conversation made of the prompt as
    the system message and the text as the user message, with temperature
    0.3, at most 500 tokens and no response format, to the deployment given
    as [model] or else the fast chat deployment, and returns the content of
    the first choice. *)
Theorem quick_analysis_request {P} (pv : provider P) (g : globals)
    (text prompt : string) (override : option string) (w : world P)
    (c : choice) (cs : list choice) (p' : P) :
  let target := str_or override (deployment_chat_mini (_config g)) in
  let kwargs :=
    {| kw_model := target;
       kw_messages := [[("role", "system"); ("content", prompt)];
                       [("role", "user"); ("content", text)]];
       kw_temperature := Some (3 # 10)%Q;
       kw_max_tokens := 500;
       kw_response_format := None |} in
  target <> "" ->
  chat_endpoint pv (azure_openai_async_client g) kwargs (remote w)
  = (Return (mk_chat_response (c :: cs)), p') ->
  quick_analysis pv g text prompt override (start w)
  = (Return (content_text (message_content c)),
     mk_retry_state
       (mk_world p'
          (requests w ++ [ChatRequest (azure_openai_async_client g) kwargs])
          (logged w))
       []).
Proof.
  intros target kwargs Hne H.
  pose (a := {| messages := [[("role", "system"); ("content", prompt)];
                            [("role", "user"); ("content", text)]];
               model := Some target; temperature := (3 # 10)%Q;
               max_tokens := 500; response_format := None |}).
  change (quick_analysis pv g text prompt override (start w))
    with (chat_completion pv g a (start w)).
  assert (Hk : build_kwargs g a = kwargs).
  { unfold build_kwargs, a, kwargs. simpl.
    destruct target; [contradiction|reflexivity]. }
  rewrite (chat_completion_content pv g a (start w) c cs p');
    [rewrite Hk; reflexivity|].
  rewrite Hk. exact H.
Qed.

Lemma quick_analysis_request_witness :
  quick_analysis (stub_provider (Some "fine") byte_embedding) example_globals
    "the text" "Summarise." None (start (initial_world tt))
  = (Return "fine",
     mk_retry_state
       (mk_world tt
          [ChatRequest (azure_openai_async_client example_globals)
             {| kw_model := "gpt-4.1-mini";
                kw_messages := [[("role", "system"); ("content", "Summarise.")];
                                [("role", "user"); ("content", "the text")]];
                kw_temperature := Some (3 # 10)%Q;
                kw_max_tokens := 500;
                kw_response_format := None |}]
          [])
       []).
Proof.
  apply (quick_analysis_request (stub_provider (Some "fine") byte_embedding)
           example_globals "the text" "Summarise." None (initial_world tt)
           (mk_choice (Some "fine")) [] tt).
  - discriminate.
  - reflexivity.
Defined.

(** ** Model names and deployments *)

Lemma example_globals_mapping :
  _MODEL_TO_DEPLOYMENT example_globals
  = _initialize_model_mapping (_config example_globals).
Proof. reflexivity. Qed.

Lemma mapping_values (config : AzureOpenAIConfig) (name d : string) :
  _initialize_model_mapping config !! name = Some d ->
  d ∈ [deployment_chat config; deployment_chat_mini config;
       deployment_embedding config].
Proof.
  unfold _initialize_model_mapping. intros H.
  repeat (apply lookup_insert_Some in H; destruct H as [[_ <-]|[_ H]];
          [set_solver|]).
  rewrite lookup_empty in H. discriminate.
Qed.

(** X15: once the module is initialised, the five OpenAI model names of
    the mapping resolve to the configured deployments: the three chat
    names to the main or the fast chat deployment, the two embedding names
    to the embedding deployment. *)
Theorem get_deployment_name_known (g : globals) :
  _MODEL_TO_DEPLOYMENT g = _initialize_model_mapping (_config g) ->
  get_deployment_name g "gpt-4o" = Return (deployment_chat (_config g))
  /\ get_deployment_name g "gpt-4o-mini" = Return (deployment_chat_mini (_config g))
  /\ get_deployment_name g "gpt-4" = Return (deployment_chat (_config g))
  /\ get_deployment_name g "text-embedding-ada-002"
     = Return (deployment_embedding (_config g))
  /\ get_deployment_name g "text-embedding-3-small"
     = Return (deployment_embedding (_config g)).
Proof.
  intros H. unfold get_deployment_name. rewrite H.
  unfold _initialize_model_mapping.
  repeat split;
    repeat (rewrite lookup_insert_ne by discriminate);
    rewrite lookup_insert_eq; reflexivity.
Qed.

Lemma get_deployment_name_known_witness :
  get_deployment_name example_globals "gpt-4o" = Return "gpt-4.1"
  /\ get_deployment_name example_globals "gpt-4o-mini" = Return "gpt-4.1-mini"
  /\ get_deployment_name example_globals "gpt-4" = Return "gpt-4.1"
  /\ get_deployment_name example_globals "text-embedding-ada-002"
     = Return "text-embedding-ada-002"
  /\ get_deployment_name example_globals "text-embedding-3-small"
     = Return "text-embedding-ada-002".
Proof.
  exact (get_deployment_name_known example_globals example_globals_mapping).
Defined.

(** X16: once the module is initialised, whatever [get_deployment_name]
    returns is one of the three configured deployments, and it never
    fails on a configured deployment. *)
Theorem get_deployment_name_configured (g : globals) :
  _MODEL_TO_DEPLOYMENT g = _initialize_model_mapping (_config g) ->
  let deployments :=
    [deployment_chat (_config g); deployment_chat_mini (_config g);
     deployment_embedding (_config g)] in
  (forall name d, get_deployment_name g name = Return d -> d ∈ deployments)
  /\ (forall d, d ∈ deployments ->
        exists d', get_deployment_name g d = Return d' /\ d' ∈ deployments).
Proof.
  intros H deployments.
  assert (Hret : forall name d,
             get_deployment_name g name = Return d -> d ∈ deployments).
  { intros name d. unfold get_deployment_name. rewrite H.
    destruct (_initialize_model_mapping (_config g) !! name) as [d0|] eqn:E.
    - intros Hd. injection Hd as <-. exact (mapping_values _ _ _ E).
    - case_bool_decide as Hin; [|discriminate].
      intros Hd. injection Hd as <-. exact Hin. }
  split; [exact Hret|].
  intros d Hd.
  destruct (get_deployment_name g d) as [d'|e] eqn:E.
  - exists d'. split; [reflexivity|]. exact (Hret d d' E).
  - exfalso. unfold get_deployment_name in E. rewrite H in E.
    destruct (_initialize_model_mapping (_config g) !! d); [discriminate|].
    rewrite bool_decide_true in E by exact Hd. discriminate.
Qed.

Lemma get_deployment_name_configured_witness :
  let deployments :=
    [deployment_chat (_config example_globals);
     deployment_chat_mini (_config example_globals);
     deployment_embedding (_config example_globals)] in
  (forall name d,
      get_deployment_name example_globals name = Return d -> d ∈ deployments)
  /\ (forall d, d ∈ deployments ->
        exists d', get_deployment_name example_globals d = Return d'
                   /\ d' ∈ deployments).
Proof.
  exact (get_deployment_name_configured example_globals example_globals_mapping).
Defined.

(** X17: a name that is neither one of the five model names of the
    mapping nor a configured deployment is rejected with [ValueError]. *)
Theorem get_deployment_name_unknown (g : globals) (name : string) :
  _MODEL_TO_DEPLOYMENT g = _initialize_model_mapping (_config g) ->
  name ∉ ["gpt-4o"; "gpt-4o-mini"; "gpt-4"; "text-embedding-ada-002";
          "text-embedding-3-small"] ->
  name ∉ [deployment_chat (_config g); deployment_chat_mini (_config g);
          deployment_embedding (_config g)] ->
  get_deployment_name g name
  = Raise (ValueError ("Unknown model name: " +:+ name)).
Proof.
  intros H Hkeys Hdep. unfold get_deployment_name. rewrite H.
  unfold _initialize_model_mapping.
  repeat (rewrite lookup_insert_ne by (intros <-; apply Hkeys; set_solver)).
  rewrite lookup_empty. rewrite bool_decide_false by exact Hdep. reflexivity.
Qed.

Lemma get_deployment_name_unknown_witness :
  get_deployment_name example_globals "gpt-3.5-turbo"
  = Raise (ValueError "Unknown model name: gpt-3.5-turbo").
Proof.
  apply (get_deployment_name_unknown example_globals "gpt-3.5-turbo"
           example_globals_mapping).
  - intros Hin. repeat (apply elem_of_cons in Hin; destruct Hin as [Hin|Hin];
                        [discriminate|]).
    apply elem_of_nil in Hin. exact Hin.
  - intros Hin. repeat (apply elem_of_cons in Hin; destruct Hin as [Hin|Hin];
                        [vm_compute in Hin; discriminate|]).
    apply elem_of_nil in Hin. exact Hin.
Defined.

(** ** More on the configuration *)

(** X18: when the endpoint and the key are resolvable, every field of
    the configuration whose variable is set holds the value of that
    variable; for the five optional ones that includes the empty text,
    which does not fall back to the default. *)
Theorem AzureOpenAIConfig_reads_environment (env : environ) :
  resolvable env "AZURE_OPENAI_ENDPOINT" ->
  resolvable env "AZURE_OPENAI_KEY" ->
  exists config,
    AzureOpenAIConfig_init env = Return config
    /\ env !! "AZURE_OPENAI_ENDPOINT" = Some (endpoint config)
    /\ env !! "AZURE_OPENAI_KEY" = Some (api_key config)
    /\ (forall v, env !! "AZURE_OPENAI_API_VERSION" = Some v ->
                  chat_api_version config = v)
    /\ (forall v, env !! "AZURE_OPENAI_EMBEDDING_API_VERSION" = Some v ->
                  embedding_api_version config = v)
    /\ (forall v, env !! "AZURE_OPENAI_DEPLOYMENT_CHAT" = Some v ->
                  deployment_chat config = v)
    /\ (forall v, env !! "AZURE_OPENAI_DEPLOYMENT_CHAT_MINI" = Some v ->
                  deployment_chat_mini config = v)
    /\ (forall v, env !! "AZURE_OPENAI_DEPLOYMENT_EMBEDDING" = Some v ->
                  deployment_embedding config = v).
Proof.
  intros (ep & Hep & Hepne) (key & Hkey & Hkeyne).
  unfold AzureOpenAIConfig_init.
  rewrite (_get_required_env_resolvable _ _ _ Hep Hepne).
  rewrite (_get_required_env_resolvable _ _ _ Hkey Hkeyne).
  eexists. split; [reflexivity|]. simpl.
  split; [exact Hep|]. split; [exact Hkey|].
  unfold _get_optional_env.
  repeat split; intros v ->; reflexivity.
Qed.

(** An environment that sets an optional variable to the empty text. *)
Lemma AzureOpenAIConfig_reads_environment_witness :
  exists config,
    AzureOpenAIConfig_init
      (<["AZURE_OPENAI_DEPLOYMENT_CHAT" := ""]> minimal_environ) = Return config
    /\ deployment_chat config = "".
Proof.
  destruct (AzureOpenAIConfig_reads_environment
              (<["AZURE_OPENAI_DEPLOYMENT_CHAT" := ""]> minimal_environ))
    as (config & Hc & _ & _ & _ & _ & Hd & _).
  - eexists. split; [vm_compute; reflexivity | discriminate].
  - eexists. split; [vm_compute; reflexivity | discriminate].
  - exists config. split; [exact Hc|]. apply Hd. vm_compute. reflexivity.
Defined.

(** X19: the error names the first required variable that cannot be
    resolved: the endpoint when it is unset or empty, whatever the key
    is, and the key otherwise. *)
Theorem AzureOpenAIConfig_names_missing_variable (env : environ) :
  (~ resolvable env "AZURE_OPENAI_ENDPOINT" ->
   AzureOpenAIConfig_init env
   = Raise (ValueError
              "Missing required environment variable: AZURE_OPENAI_ENDPOINT"))
  /\ (resolvable env "AZURE_OPENAI_ENDPOINT" ->
      ~ resolvable env "AZURE_OPENAI_KEY" ->
      AzureOpenAIConfig_init env
      = Raise (ValueError
                 "Missing required environment variable: AZURE_OPENAI_KEY")).
Proof.
  split.
  - intros Hm. unfold AzureOpenAIConfig_init.
    rewrite (_get_required_env_unresolvable _ _ Hm). reflexivity.
  - intros (ep & Hep & Hepne) Hm. unfold AzureOpenAIConfig_init.
    rewrite (_get_required_env_resolvable _ _ _ Hep Hepne).
    rewrite (_get_required_env_unresolvable _ _ Hm). reflexivity.
Qed.

Lemma AzureOpenAIConfig_names_missing_variable_witness :
  AzureOpenAIConfig_init (<["AZURE_OPENAI_ENDPOINT" := ""]> ∅)
  = Raise (ValueError
             "Missing required environment variable: AZURE_OPENAI_ENDPOINT")
  /\ AzureOpenAIConfig_init (<["AZURE_OPENAI_ENDPOINT" := "https://x"]> ∅)
     = Raise (ValueError
                "Missing required environment variable: AZURE_OPENAI_KEY").
Proof.
  split.
  - apply (AzureOpenAIConfig_names_missing_variable
             (<["AZURE_OPENAI_ENDPOINT" := ""]> ∅)).
    intros (v & Hv & Hne). vm_compute in Hv. injection Hv as <-.
    apply Hne. reflexivity.
  - apply (AzureOpenAIConfig_names_missing_variable
             (<["AZURE_OPENAI_ENDPOINT" := "https://x"]> ∅)).
    + eexists. split; [vm_compute; reflexivity | discriminate].
    + intros (v & Hv & _). vm_compute in Hv. discriminate.
Defined.

(** ** More on the probe *)

(** The requests, the record and the log of the probe, by cases on what
    the provider does. *)
Lemma probe_shape {P} (pv : provider P) (g : globals) (w : world P) :
  let res := validate_azure_connection pv g w in
  let chat := ChatRequest (azure_openai_client g) (probe_chat_kwargs g) in
  let embed :=
    EmbeddingsRequest (azure_openai_embedding_client g)
      (probe_embeddings_kwargs g) in
  (requests (snd res) = requests w ++ [chat]
   \/ requests (snd res) = requests w ++ [chat; embed])
  /\ match fst res with
     | Return d =>
         requests (snd res) = requests w ++ [chat; embed]
         /\ logged (snd res) = logged w
         /\ exists s c e,
              d = [("status", s); ("chat_completion", c); ("embeddings", e);
                   ("endpoint", endpoint (_config g))]
              /\ (s = "healthy" \/ s = "degraded")
              /\ (c = "ok" \/ c = "failed")
              /\ (e = "ok" \/ e = "failed")
     | Raise e => logged (snd res) = logged w ++ [LogValidationFailed e]
     end.
Proof.
  intros res chat embed. subst res chat embed.
  unfold validate_azure_connection, bind, chat_completions_create,
    embeddings_create.
  destruct (chat_endpoint pv _ _ (remote w)) as [[resp|e] p1]; simpl.
  2: { split; [left; reflexivity | reflexivity]. }
  destruct (choices resp) as [|c cs]; simpl.
  { split; [left; reflexivity | reflexivity]. }
  destruct (embeddings_endpoint pv _ _ p1) as [[eresp|e] p2]; simpl.
  2: { rewrite <- app_assoc. split; [right; reflexivity | reflexivity]. }
  destruct (data eresp) as [|item items]; simpl.
  { rewrite <- app_assoc. split; [right; reflexivity | reflexivity]. }
  rewrite <- app_assoc. split; [right; reflexivity|].
  split; [reflexivity|]. split; [reflexivity|].
  do 3 eexists. split; [reflexivity|].
  destruct (message_content c); destruct (embedding item); simpl; auto.
Qed.

(** X20: whatever the provider does, the probe sends the chat request
    and then at most the embeddings request, without a retry; when it
    returns, the record has the four keys, a status that is "healthy" or
    "degraded", the configured endpoint, and nothing is logged; when it
    raises, the exception is logged once. *)
Theorem validate_azure_connection_shape {P} (pv : provider P) (g : globals)
    (w : world P) :
  let res := validate_azure_connection pv g w in
  let chat := ChatRequest (azure_openai_client g) (probe_chat_kwargs g) in
  let embed :=
    EmbeddingsRequest (azure_openai_embedding_client g)
      (probe_embeddings_kwargs g) in
  (requests (snd res) = requests w ++ [chat]
   \/ requests (snd res) = requests w ++ [chat; embed])
  /\ match fst res with
     | Return d =>
         requests (snd res) = requests w ++ [chat; embed]
         /\ logged (snd res) = logged w
         /\ exists s c e,
              d = [("status", s); ("chat_completion", c); ("embeddings", e);
                   ("endpoint", endpoint (_config g))]
              /\ (s = "healthy" \/ s = "degraded")
              /\ (c = "ok" \/ c = "failed")
              /\ (e = "ok" \/ e = "failed")
     | Raise e => logged (snd res) = logged w ++ [LogValidationFailed e]
     end.
Proof. exact (probe_shape pv g w). Qed.

(** X21: when the chat call of the probe raises, the probe raises the
    same exception at once, even one that [with_retry] would retry: the
    embeddings call is not made. *)
Theorem validate_azure_connection_chat_failure {P} (pv : provider P)
    (g : globals) (w : world P) (e : exn) (p1 : P) :
  chat_endpoint pv (azure_openai_client g) (probe_chat_kwargs g) (remote w)
  = (Raise e, p1) ->
  validate_azure_connection pv g w
  = (Raise e,
     mk_world p1
       (requests w ++ [ChatRequest (azure_openai_client g) (probe_chat_kwargs g)])
       (logged w ++ [LogValidationFailed e])).
Proof.
  intros H. unfold validate_azure_connection, bind, chat_completions_create.
  rewrite H. reflexivity.
Qed.

Lemma validate_azure_connection_chat_failure_witness :
  validate_azure_connection (failing_provider (RateLimitError "busy"))
    example_globals (initial_world tt)
  = (Raise (RateLimitError "busy"),
     mk_world tt
       [ChatRequest (azure_openai_client example_globals)
          (probe_chat_kwargs example_globals)]
       [LogValidationFailed (RateLimitError "busy")]).
Proof.
  exact (validate_azure_connection_chat_failure
           (failing_provider (RateLimitError "busy")) example_globals
           (initial_world tt) (RateLimitError "busy") tt eq_refl).
Defined.

(** ** [main.py]: authentication and the health endpoint *)

(** X22: [require_auth] accepts any credentials, whatever the token,
    the empty one included, and hands the token back; only a request
    without credentials is refused, with status 401, and the refusal
    "Invalid authentication token" is never produced.  The endpoint
    [get_me] answers accordingly. *)
Theorem require_auth_accepts_any_credentials
    (c : option HTTPAuthorizationCredentials) :
  (forall cr, c = Some cr ->
     require_auth c = Respond [("token", credentials cr)]
     /\ get_me c = Respond [("authenticated", JBool true);
                            ("message", JString "You are authenticated!")])
  /\ (c = None ->
      require_auth c = HTTPException 401 "Missing authentication token"
      /\ get_me c = HTTPException 401 "Missing authentication token")
  /\ require_auth c <> HTTPException 401 "Invalid authentication token".
Proof.
  destruct c as [cr|].
  - split; [|split].
    + intros cr' Hc. injection Hc as <-. split; reflexivity.
    + discriminate.
    + discriminate.
  - split; [|split].
    + discriminate.
    + intros _. split; reflexivity.
    + discriminate.
Qed.

Lemma require_auth_accepts_any_credentials_witness :
  require_auth (Some (mk_credentials "Bearer" "")) = Respond [("token", "")]
  /\ require_auth None = HTTPException 401 "Missing authentication token".
Proof.
  split.
  - destruct (require_auth_accepts_any_credentials
                (Some (mk_credentials "Bearer" ""))) as [H _].
    destruct (H (mk_credentials "Bearer" "") eq_refl) as [Hr _]. exact Hr.
  - destruct (require_auth_accepts_any_credentials None) as (_ & H & _).
    destruct (H eq_refl) as [Hr _]. exact Hr.
Defined.

(** What the probe returns always builds an [AIHealthResponse]. *)
Lemma AIHealthResponse_of_probe {P} (pv : provider P) (g : globals)
    (w w' : world P) (d : str_dict) :
  validate_azure_connection pv g w = (Return d, w') ->
  exists r,
    AIHealthResponse_of d = Some r
    /\ dict_get "status" d = Some (ai_status r)
    /\ dict_get "chat_completion" d = Some (ai_chat_completion r)
    /\ dict_get "embeddings" d = Some (ai_embeddings r)
    /\ ai_endpoint r = endpoint (_config g).
Proof.
  intros H. pose proof (probe_shape pv g w) as Hs.
  cbv zeta in Hs. rewrite H in Hs. simpl in Hs.
  destruct Hs as (_ & _ & _ & s & c & e & -> & _).
  eexists. split; [reflexivity|]. repeat split.
Qed.

(** X23: once the provider module is imported, the health endpoint
    answers with the record of the probe whenever the probe returns, a
    "degraded" record included, and logs nothing. *)
Theorem ai_health_check_reports_probe {P} (env : environ) (pv : provider P)
    (ps : process P) (g : globals) (d : str_dict) (w' : world P) :
  openai_provider ps = Some g ->
  validate_azure_connection pv g (the_world ps) = (Return d, w') ->
  exists r,
    ai_health_check env pv ps
    = (Respond r,
       mk_process (Some g) (startup_logged ps) (main_logged ps) w')
    /\ dict_get "status" d = Some (ai_status r)
    /\ dict_get "chat_completion" d = Some (ai_chat_completion r)
    /\ dict_get "embeddings" d = Some (ai_embeddings r)
    /\ ai_endpoint r = endpoint (_config g).
Proof.
  intros Hg Hv.
  destruct (AIHealthResponse_of_probe pv g (the_world ps) w' d Hv)
    as (r & Hr & Hrest).
  exists r. split; [|exact Hrest].
  unfold ai_health_check, bind, import_openai_provider, in_world.
  rewrite Hg. rewrite Hv. rewrite Hr. unfold ret. rewrite Hg. reflexivity.
Qed.

Lemma ai_health_check_reports_probe_witness :
  exists r,
    fst (ai_health_check minimal_environ (stub_provider None byte_embedding)
           (mk_process (Some example_globals) [] [] (initial_world tt)))
    = Respond r
    /\ ai_status r = "degraded".
Proof.
  destruct (ai_health_check_reports_probe minimal_environ
              (stub_provider None byte_embedding)
              (mk_process (Some example_globals) [] [] (initial_world tt))
              example_globals
              [("status", "degraded"); ("chat_completion", "failed");
               ("embeddings", "ok");
               ("endpoint", "https://example.openai.azure.com")]
              (mk_world tt
                 [ChatRequest (azure_openai_client example_globals)
                    (probe_chat_kwargs example_globals);
                  EmbeddingsRequest (azure_openai_embedding_client example_globals)
                    (probe_embeddings_kwargs example_globals)]
                 [])
              eq_refl eq_refl) as (r & Hr & Hs & _).
  exists r. split.
  - rewrite Hr. reflexivity.
  - simpl in Hs. injection Hs as <-. reflexivity.
Defined.

(** X24: once the provider module is imported, an exception of the
    probe becomes the answer 503 whose detail is "AI service unavailable: "
    followed by the message of the exception; it is logged and never
    leaves the endpoint. *)
Theorem ai_health_check_unavailable {P} (env : environ) (pv : provider P)
    (ps : process P) (g : globals) (e : exn) (w' : world P) :
  openai_provider ps = Some g ->
  validate_azure_connection pv g (the_world ps) = (Raise e, w') ->
  ai_health_check env pv ps
  = (HTTPException 503 ("AI service unavailable: " +:+ exn_message e),
     mk_process (Some g) (startup_logged ps)
       (main_logged ps ++ [LogHealthCheckFailed e]) w').
Proof.
  intros Hg Hv.
  unfold ai_health_check, bind, import_openai_provider, in_world.
  rewrite Hg. rewrite Hv. simpl. rewrite Hg. reflexivity.
Qed.

Lemma ai_health_check_unavailable_witness :
  fst (ai_health_check minimal_environ
         (failing_provider (APIConnectionError "Connection error."))
         (mk_process (Some example_globals) [] [] (initial_world tt)))
  = HTTPException 503 "AI service unavailable: Connection error.".
Proof.
  rewrite (ai_health_check_unavailable minimal_environ
             (failing_provider (APIConnectionError "Connection error."))
             (mk_process (Some example_globals) [] [] (initial_world tt))
             example_globals (APIConnectionError "Connection error.")
             (mk_world tt
                [ChatRequest (azure_openai_client example_globals)
                   (probe_chat_kwargs example_globals)]
                [LogValidationFailed (APIConnectionError "Connection error.")])
             eq_refl eq_refl).
  reflexivity.
Defined.

(** X25: the provider module is imported by the health endpoint, not at
    the start of [main.py]: with an endpoint variable that cannot be
    resolved the import fails inside the endpoint, which answers 503 with
    the name of the variable, sends no request to the provider, and
    leaves the module not imported, so that the next call tries again. *)
Theorem ai_health_check_missing_endpoint {P} (env : environ) (pv : provider P)
    (ps : process P) :
  openai_provider ps = None ->
  ~ resolvable env "AZURE_OPENAI_ENDPOINT" ->
  let e :=
    ValueError "Missing required environment variable: AZURE_OPENAI_ENDPOINT" in
  ai_health_check env pv ps
  = (HTTPException 503
       "AI service unavailable: Missing required environment variable: AZURE_OPENAI_ENDPOINT",
     mk_process None (startup_logged ps ++ [LogCritical e])
       (main_logged ps ++ [LogHealthCheckFailed e]) (the_world ps)).
Proof.
  intros Hg Hm e.
  unfold ai_health_check, bind, import_openai_provider, module_init,
    AzureOpenAIConfig_init.
  rewrite Hg, (_get_required_env_unresolvable _ _ Hm). reflexivity.
Qed.

Lemma ai_health_check_missing_endpoint_witness :
  fst (ai_health_check (∅ : environ) (stub_provider None byte_embedding)
         (fresh_process (initial_world tt)))
  = HTTPException 503
      "AI service unavailable: Missing required environment variable: AZURE_OPENAI_ENDPOINT".
Proof.
  rewrite (ai_health_check_missing_endpoint (∅ : environ)
             (stub_provider None byte_embedding)
             (fresh_process (initial_world tt)) eq_refl).
  - reflexivity.
  - intros (v & Hv & _). vm_compute in Hv. discriminate.
Defined.

(** X26: the first health check of a process whose configuration
    resolves imports the provider module; from then on the endpoint does
    not read the environment again. *)
Theorem ai_health_check_imports_once {P} (env env' : environ) (pv : provider P)
    (ps : process P) (g : globals) :
  openai_provider ps = None ->
  fst (module_init env) = Return g ->
  let ps' := snd (ai_health_check env pv ps) in
  openai_provider ps' = Some g
  /\ ai_health_check env' pv ps' = ai_health_check env pv ps'.
Proof.
  intros Hnone Hinit ps'.
  assert (Hp : openai_provider ps' = Some g).
  { subst ps'. unfold ai_health_check, bind, import_openai_provider, in_world.
    rewrite Hnone. destruct (module_init env) as [r l]. simpl in Hinit. subst r.
    simpl.
    destruct (validate_azure_connection pv g (the_world ps)) as [[d|e] w'];
      simpl; [|reflexivity].
    destruct (AIHealthResponse_of d); reflexivity. }
  split; [exact Hp|].
  unfold ai_health_check, bind, import_openai_provider. rewrite Hp. reflexivity.
Qed.

Lemma ai_health_check_imports_once_witness :
  let ps' :=
    snd (ai_health_check minimal_environ (stub_provider None byte_embedding)
           (fresh_process (initial_world tt))) in
  openai_provider ps' = Some example_globals
  /\ ai_health_check (∅ : environ) (stub_provider None byte_embedding) ps'
     = ai_health_check minimal_environ (stub_provider None byte_embedding) ps'.
Proof.
  exact (ai_health_check_imports_once minimal_environ (∅ : environ)
           (stub_provider None byte_embedding)
           (fresh_process (initial_world tt)) example_globals eq_refl eq_refl).
Defined.

(** ** Exhaustion *)


